(** * datamol.fp: fingerprint dispatch, normalisation and folding

    A shallow embedding of [src/datamol/fp.py].  The module is a shim over
    RDKit and NumPy: RDKit's fingerprint algorithms are collaborators (taken
    as parameters of a section), while the NumPy operations the module calls
    are modelled by the small functions of [Module Np], each one next to the
    call it stands for. *)

From stdpp Require Import gmap strings list fin_maps pretty.
From Stdlib Require Import Ascii ZArith QArith Qround Lia.

Open Scope Z_scope.

(** ** Python exceptions and results *)

(** The exception classes this module raises itself or receives from NumPy;
    [RuntimeError] stands for whatever the native layer raises. *)
Inductive exn : Type :=
| ValueError (msg : string)
| IndexError (msg : string)
| KeyError (key : string)
| TypeError (msg : string)
| RuntimeError (msg : string).

(** A call either returns a value or raises. *)
Inductive result (A : Type) : Type :=
| Ok (a : A)
| Raise (e : exn).
Arguments Ok {A} a.
Arguments Raise {A} e.

Definition result_bind {A B : Type} (r : result A) (k : A → result B) : result B :=
  match r with
  | Ok a => k a
  | Raise e => Raise e
  end.

Definition result_map {A B : Type} (f : A → B) (r : result A) : result B :=
  result_bind r (λ a, Ok (f a)).

Definition returns {A : Type} (r : result A) : bool :=
  match r with Ok _ => true | Raise _ => false end.

Declare Scope result_scope.
Delimit Scope result_scope with result.
Notation "'let*' x := r 'in' k" := (result_bind r (λ x, k))
  (at level 10, x pattern, r at level 100, k at level 200) : result_scope.
Open Scope result_scope.

(** ** The NumPy operations used by the module *)

Module Np.

(** A float64 scalar: a finite value (kept as the rational it denotes) or
    NaN.  The floats this module computes with are [1.0] and small integers,
    which float64 represents exactly. *)
Inductive f64 : Type :=
| Ffin (q : Q)
| Fnan.

(** One-dimensional arrays.  Indexing only distinguishes integer from
    floating dtypes, so the integer dtypes (int64 of [np.zeros(.., dtype=int)],
    uint8 of [np.frombuffer(.., "u1")]) share a constructor.  Integers are
    unbounded here: the counts of a sparse vector are C ints and a sum of
    fewer than 2^32 of them stays inside int64. *)
Inductive ndarray : Type :=
| IntArray (xs : list Z)
| FloatArray (fs : list f64).

(** A Python number as found in a list handed to [np.array]. *)
Inductive pynum : Type :=
| PyInt (z : Z)
| PyFloat (f : f64).

Definition pynum_is_int (x : pynum) : bool :=
  match x with PyInt _ => true | PyFloat _ => false end.

Definition pynum_int (x : pynum) : Z :=
  match x with PyInt z => z | PyFloat _ => 0 end.

Definition pynum_float (x : pynum) : f64 :=
  match x with PyInt z => Ffin (inject_Z z) | PyFloat f => f end.

(** [np.array(l)] for a flat list of numbers: the dtype is discovered from
    the elements.  An empty list has no element to discover it from and
    yields an empty float64 array; a list of Python ints yields an integer
    array; one float makes the whole array float64. *)
Definition array (l : list pynum) : ndarray :=
  match l with
  | [] => FloatArray []
  | _ :: _ =>
      if forallb pynum_is_int l then IntArray (pynum_int <$> l)
      else FloatArray (pynum_float <$> l)
  end.

(** [np.ones(n)]: float64 ones. *)
Definition ones (n : nat) : list f64 := replicate n (Ffin 1).

(** [np.zeros(n, dtype=int)]. *)
Definition zeros (n : Z) : result (list Z) :=
  if bool_decide (n < 0) then Raise (ValueError "negative dimensions are not allowed")
  else Ok (replicate (Z.to_nat n) 0).

(** [x % d] on an integer element: floored remainder (the sign follows the
    divisor, as [Z.modulo]); by zero NumPy warns and yields 0. *)
Definition int_mod (d x : Z) : Z :=
  if bool_decide (d = 0) then 0 else x mod d.

(** [x % d] on a float64 element: floored remainder, NaN by zero. *)
Definition f64_mod (d : Z) (x : f64) : f64 :=
  match x with
  | Fnan => Fnan
  | Ffin q =>
      if bool_decide (d = 0) then Fnan
      else Ffin (q - inject_Z d * inject_Z (Qfloor (q / inject_Z d)))
  end.

(** [a % d] for an array [a] and a Python int [d]: elementwise, the dtype is
    kept. *)
Definition mod_ (a : ndarray) (d : Z) : ndarray :=
  match a with
  | IntArray xs => IntArray (int_mod d <$> xs)
  | FloatArray fs => FloatArray (f64_mod d <$> fs)
  end.

(** The cast float64 -> int64 truncates towards zero; NaN converts to the
    smallest int64 (x86-64). *)
Definition f64_to_int (x : f64) : Z :=
  match x with
  | Ffin q => Z.quot (Qnum q) (Z.pos (Qden q))
  | Fnan => - 2 ^ 63
  end.

(** One step of [np.add.at] into an integer array with a float64 operand:
    the float64 loop adds, the sum is cast back. *)
Definition add_float (f : f64) (x : Z) : Z :=
  match f with
  | Ffin q => f64_to_int (Ffin (inject_Z x + q))
  | Fnan => f64_to_int Fnan
  end.

(** An index into an axis of the given size: negative indices count from
    the end, anything else outside the axis is an [IndexError]. *)
Definition index (size : nat) (j : Z) : result nat :=
  if bool_decide (0 ≤ j < Z.of_nat size) then Ok (Z.to_nat j)
  else if bool_decide (- Z.of_nat size ≤ j < 0) then Ok (Z.to_nat (j + Z.of_nat size))
  else Raise (IndexError ("index " +:+ pretty j +:+
                          " is out of bounds for axis 0 with size " +:+ pretty size)).

Definition float_index_error : exn :=
  IndexError "arrays used as indices must be of integer (or boolean) type".

Definition shape_mismatch_error : exn :=
  ValueError "shape mismatch: value array could not be broadcast to indexing result".

(** The unbuffered loop shared by [ufunc.at] and index assignment: every
    pair (index, operand) updates its cell in turn, so repeated indices
    accumulate. *)
Fixpoint update_at {V : Type} (op : V → Z → Z) (a : list Z) (ivs : list (Z * V))
  : result (list Z) :=
  match ivs with
  | [] => Ok a
  | (j, v) :: rest =>
      let* k := index (length a) j in
      update_at op (alter (op v) k a) rest
  end.

(** [np.add.at(a, i, v)] for an integer array [a].  The index array has to
    have an integer dtype; [v] is the operand array of the same shape (the
    module always passes the keys and the values of one dict). *)
Definition add_at (a : list Z) (i v : ndarray) : result (list Z) :=
  match i with
  | FloatArray _ => Raise float_index_error
  | IntArray js =>
      match v with
      | IntArray vs =>
          if bool_decide (length js = length vs) then update_at Z.add a (zip js vs)
          else Raise shape_mismatch_error
      | FloatArray fs =>
          if bool_decide (length js = length fs) then update_at add_float a (zip js fs)
          else Raise shape_mismatch_error
      end
  end.

(** [a[i] = 1]: the scalar is broadcast over the index array. *)
Definition setitem_scalar (a : list Z) (i : ndarray) (x : Z) : result (list Z) :=
  match i with
  | FloatArray _ => Raise float_index_error
  | IntArray js => update_at (λ v _, v) a ((λ j, (j, x)) <$> js)
  end.

(** [a[i] = v] for an integer value array of the shape of [i]. *)
Definition setitem (a : list Z) (i v : ndarray) : result (list Z) :=
  match i with
  | FloatArray _ => Raise float_index_error
  | IntArray js =>
      match v with
      | IntArray vs =>
          if bool_decide (length js = length vs)
          then update_at (λ v _, v) a (zip js vs)
          else Raise shape_mismatch_error
      | FloatArray fs =>
          if bool_decide (length js = length fs)
          then update_at (λ f _, f64_to_int f) a (zip js fs)
          else Raise shape_mismatch_error
      end
  end.

(** [np.clip(a, a_min=lo, a_max=hi)] on an integer array. *)
Definition clip (lo hi : Z) (a : list Z) : list Z :=
  (λ x, Z.min (Z.max x lo) hi) <$> a.

(** [np.clip] on an array of either dtype. *)
Definition f64_clip (lo hi : Z) (x : f64) : f64 :=
  match x with
  | Fnan => Fnan
  | Ffin q =>
      if Qle_bool q (inject_Z lo) then Ffin (inject_Z lo)
      else if Qle_bool (inject_Z hi) q then Ffin (inject_Z hi)
      else Ffin q
  end.

Definition clip_array (lo hi : Z) (a : ndarray) : ndarray :=
  match a with
  | IntArray xs => IntArray (clip lo hi xs)
  | FloatArray fs => FloatArray (f64_clip lo hi <$> fs)
  end.

(** The rows of [np.array(items).T] for a list of (index, value) pairs, as
    iteration over the first axis yields them.  For n >= 1 pairs the array
    has shape (n, 2), of one dtype for indices and values alike, and its
    transpose has the row of the indices and the row of the values;
    [np.array([])] has shape (0,), its transpose is itself and iterating it
    yields nothing. *)
Definition array_items_T (items : list (Z * pynum)) : list ndarray :=
  match items with
  | [] => []
  | _ :: _ =>
      if forallb pynum_is_int items.*2
      then [IntArray items.*1; IntArray (pynum_int <$> items.*2)]
      else [FloatArray ((λ j, Ffin (inject_Z j)) <$> items.*1);
            FloatArray (pynum_float <$> items.*2)]
  end.

(** [np.frombuffer(b, "u1") - ord("0")]: the bytes as uint8, the difference
    wraps modulo 256. *)
Definition frombuffer_u1_sub (b : list Z) (c : Z) : list Z :=
  (λ x, (x - c) mod 256) <$> b.

End Np.

(** Tuple unpacking [a, b = rows]. *)
Definition unpack2 {A : Type} (rows : list A) : result (A * A) :=
  match rows with
  | [a; b] => Ok (a, b)
  | [] | [_] =>
      Raise (ValueError ("not enough values to unpack (expected 2, got " +:+
                         pretty (length rows) +:+ ")"))
  | _ => Raise (ValueError "too many values to unpack (expected 2)")
  end.

(** ** Native fingerprint results *)

(** The four integer widths of RDKit's sparse count vectors. *)
Inductive intvect_kind : Type :=
| UIntSparse
| IntSparse
| LongSparse
| ULongSparse.

(** What a fingerprint argument can be.  RDKit keeps the on bits of a
    [SparseBitVect] in a set and the entries of a [SparseIntVect] in a map
    from index to nonzero count, hence [gset] and [gmap]. *)
Inductive fingerprint : Type :=
| NdArray (a : Np.ndarray)
| SparseBitVect (num_bits : Z) (on_bits : gset Z)
| ExplicitBitVect (bits : list bool)
| SparseIntVect (kind : intvect_kind) (length : Z) (elems : gmap Z Z)
| OtherObject (type_name : string).

Definition intvect_name (k : intvect_kind) : string :=
  match k with
  | UIntSparse => "UIntSparseIntVect"
  | IntSparse => "IntSparseIntVect"
  | LongSparse => "LongSparseIntVect"
  | ULongSparse => "ULongSparseIntVect"
  end.

(** The qualified name of [type(fp)]. *)
Definition type_name_of (fp : fingerprint) : string :=
  match fp with
  | NdArray _ => "numpy.ndarray"
  | SparseBitVect _ _ => "rdkit.DataStructs.cDataStructs.SparseBitVect"
  | ExplicitBitVect _ => "rdkit.DataStructs.cDataStructs.ExplicitBitVect"
  | SparseIntVect k _ _ => "rdkit.DataStructs.cDataStructs." +:+ intvect_name k
  | OtherObject name => name
  end.

(** [f"{type(fp)}"]. *)
Definition type_repr (fp : fingerprint) : string :=
  "<class '" +:+ type_name_of fp +:+ "'>".

(** [fp.GetOnBits()]: the on bits as a sequence.  RDKit enumerates a set or
    a map in ascending order of the indices, [elements] and [map_to_list] in
    an order of their own; what the module computes from the enumeration (sums
    per cell, assignments to distinct cells) does not depend on the order. *)
Definition GetOnBits (on_bits : gset Z) : list Z := elements on_bits.

(** [fp.GetNonzeroElements()]: a dict from index to count. *)
Definition GetNonzeroElements (elems : gmap Z Z) : gmap Z Np.pynum :=
  Np.PyInt <$> elems.

(** [fp.ToBitString()]: one character per bit. *)
Definition ToBitString (bits : list bool) : string :=
  foldr (λ b s, String (if b : bool then "1" else "0")%char s) EmptyString bits.

(** [s.encode()] on ASCII text, and [ord]. *)
Definition ord (c : ascii) : Z := Z.of_N (Ascii.N_of_ascii c).
Definition encode (s : string) : list Z := ord <$> String.list_ascii_of_string s.

(** [dict(pairs)]: a later pair overrides an earlier one with the same key. *)
Definition py_dict {V : Type} (pairs : list (Z * V)) : gmap Z V :=
  foldl (λ d kv, <[kv.1 := kv.2]> d) ∅ pairs.

(** [list(d.keys())], [list(d.values())] and [list(d.items())]. *)
Definition keys {V : Type} (d : gmap Z V) : list Z := (map_to_list d).*1.
Definition values {V : Type} (d : gmap Z V) : list V := (map_to_list d).*2.
Definition items {V : Type} (d : gmap Z V) : list (Z * V) := map_to_list d.

(** ** [fp_to_array] (fp.py, lines 193-238) *)

Definition not_supported_error (fp : fingerprint) : exn :=
  ValueError ("The fingerprint of type '" +:+ type_repr fp +:+ "' is not supported. " +:+
              "Please open a ticket at https://github.com/datamol-io/datamol/issues.").

Definition fp_to_array (fp : fingerprint) : result Np.ndarray :=
  match fp with
  | NdArray a => Ok a
  | SparseBitVect num_bits s =>
      let* tmp := Np.zeros num_bits in
      let on_bits := Np.array (Np.PyInt <$> GetOnBits s) in
      let* tmp := Np.setitem_scalar tmp on_bits 1 in
      Ok (Np.IntArray tmp)
  | ExplicitBitVect bits =>
      Ok (Np.IntArray (Np.frombuffer_u1_sub (encode (ToBitString bits)) (ord "0")))
  | SparseIntVect _ len elems =>
      let* tmp := Np.zeros len in
      let* (bit_idx, vals) :=
        unpack2 (Np.array_items_T (items (GetNonzeroElements elems))) in
      let* tmp := Np.setitem tmp bit_idx vals in
      Ok (Np.IntArray tmp)
  | OtherObject _ => Raise (not_supported_error fp)
  end.

(** ** [fold_count_fp] (fp.py, lines 314-361) *)

Definition wrong_type_error (fp : fingerprint) : exn :=
  ValueError ("The fingerprint is of wrong type: " +:+ type_repr fp).

(** The dict [tmp] of lines 329-345. *)
Definition fold_input (fp : fingerprint) : result (gmap Z Np.pynum) :=
  match fp with
  | SparseIntVect _ _ elems => Ok (GetNonzeroElements elems)
  | SparseBitVect _ s =>
      let on_bits := GetOnBits s in
      Ok (py_dict (zip on_bits (Np.PyFloat <$> Np.ones (length on_bits))))
  | _ => Raise (wrong_type_error fp)
  end.

(** The arguments are explicit here; a Python caller that leaves them out
    gets [dim=1024] and [binary=False]. *)
Definition fold_count_fp (fp : fingerprint) (dim : Z) (binary : bool)
  : result Np.ndarray :=
  let* tmp := fold_input fp in
  let i := Np.mod_ (Np.array (Np.PyInt <$> keys tmp)) dim in
  let v := Np.array (values tmp) in
  let i := Np.mod_ i dim in
  let* folded := Np.zeros dim in
  let* folded := Np.add_at folded i v in
  let folded := if binary then Np.clip 0 1 folded else folded in
  Ok (Np.IntArray folded).

(** ** The registries (fp.py, lines 24-190) *)

(** The RDKit callables stored in the tables; [estate_lambda] is the lambda
    of line 43. *)
Inductive callable : Type :=
| GetMACCSKeysFingerprint
| PatternFingerprint
| LayeredFingerprint
| GetErGFingerprint
| estate_lambda
| GetAvalonCountFP
| GetAvalonFP
| GetMorganGenerator
| GetTopologicalTorsionGenerator
| GetAtomPairGenerator
| GetRDKitFPGenerator.

(** Values of keyword arguments.  [PyObj] is an object of the toolkit that
    the module only passes along, named by the expression that produced it. *)
#[local] Unset Elimination Schemes.
Inductive pyval : Type :=
| PyNone
| PyBool (b : bool)
| PyInt (z : Z)
| PyFloat (q : Q)
| PyList (l : list pyval)
| PyObj (name : string).
#[local] Set Elimination Schemes.

(** A dict literal; the tables have no repeated key. *)
Definition dict_literal {V : Type} (entries : list (string * V)) : gmap string V :=
  list_to_map entries.

(** [{**base, **extra}] and [{..., **extra}]: the entries of [extra] come
    last and win. *)
Definition dict_unpack {V : Type} (base extra : gmap string V) : gmap string V :=
  extra ∪ base.

Definition _FP_GENERATORS : gmap string callable :=
  dict_literal [
    ("ecfp", GetMorganGenerator);
    ("fcfp", GetMorganGenerator);
    ("topological", GetTopologicalTorsionGenerator);
    ("atompair", GetAtomPairGenerator);
    ("rdkit", GetRDKitFPGenerator);
    ("ecfp-count", GetMorganGenerator);
    ("fcfp-count", GetMorganGenerator);
    ("topological-count", GetTopologicalTorsionGenerator);
    ("atompair-count", GetAtomPairGenerator);
    ("rdkit-count", GetRDKitFPGenerator)
  ].

Definition _FP_FUNCS : gmap string callable :=
  dict_unpack
    (dict_literal [
       ("maccs", GetMACCSKeysFingerprint);
       ("pattern", PatternFingerprint);
       ("layered", LayeredFingerprint);
       ("erg", GetErGFingerprint);
       ("estate", estate_lambda);
       ("avalon-count", GetAvalonCountFP);
       ("avalon", GetAvalonFP)
     ])
    _FP_GENERATORS.

Definition avalonSimilarityBits : pyval := PyObj "pyAvalonTools.avalonSimilarityBits".
Definition MorganFeatureAtomInvGen : pyval :=
  PyObj "rdFingerprintGenerator.GetMorganFeatureAtomInvGen()".

Definition _FP_DEFAULT_ARGS : gmap string (gmap string pyval) :=
  dict_literal [
    ("maccs", dict_literal []);
    ("avalon", dict_literal [
       ("nBits", PyInt 512);
       ("isQuery", PyBool false);
       ("resetVect", PyBool false);
       ("bitFlags", avalonSimilarityBits)]);
    ("ecfp", dict_literal [
       ("radius", PyInt 3);
       ("fpSize", PyInt 2048);
       ("includeChirality", PyBool false);
       ("useBondTypes", PyBool true);
       ("countSimulation", PyBool false);
       ("countBounds", PyNone);
       ("atomInvariantsGenerator", PyNone);
       ("bondInvariantsGenerator", PyNone)]);
    ("fcfp", dict_literal [
       ("radius", PyInt 2);
       ("fpSize", PyInt 2048);
       ("includeChirality", PyBool false);
       ("useBondTypes", PyBool true);
       ("countSimulation", PyBool false);
       ("countBounds", PyNone);
       ("atomInvariantsGenerator", MorganFeatureAtomInvGen);
       ("bondInvariantsGenerator", PyNone)]);
    ("topological", dict_literal [
       ("includeChirality", PyBool false);
       ("torsionAtomCount", PyInt 4);
       ("countSimulation", PyBool true);
       ("countBounds", PyNone);
       ("fpSize", PyInt 2048);
       ("atomInvariantsGenerator", PyNone)]);
    ("atompair", dict_literal [
       ("minDistance", PyInt 1);
       ("maxDistance", PyInt 30);
       ("includeChirality", PyBool false);
       ("use2D", PyBool true);
       ("countSimulation", PyBool true);
       ("countBounds", PyNone);
       ("fpSize", PyInt 2048);
       ("atomInvariantsGenerator", PyNone)]);
    ("rdkit", dict_literal [
       ("minPath", PyInt 1);
       ("maxPath", PyInt 7);
       ("useHs", PyBool true);
       ("branchedPaths", PyBool true);
       ("useBondOrder", PyBool true);
       ("countSimulation", PyBool false);
       ("countBounds", PyNone);
       ("fpSize", PyInt 2048);
       ("numBitsPerFeature", PyInt 2);
       ("atomInvariantsGenerator", PyNone)]);
    ("pattern", dict_literal [
       ("fpSize", PyInt 2048);
       ("atomCounts", PyList []);
       ("setOnlyBits", PyNone);
       ("tautomerFingerprints", PyBool false)]);
    ("layered", dict_literal [
       ("fpSize", PyInt 2048);
       ("minPath", PyInt 1);
       ("maxPath", PyInt 7);
       ("atomCounts", PyList []);
       ("setOnlyBits", PyNone);
       ("branchedPaths", PyBool true);
       ("fromAtoms", PyInt 0)]);
    ("secfp", dict_literal [
       ("n_permutations", PyInt 128);
       ("nBits", PyInt 2048);
       ("radius", PyInt 3);
       ("min_radius", PyInt 1);
       ("rings", PyBool true);
       ("kekulize", PyBool false);
       ("isomeric", PyBool false);
       ("seed", PyInt 0)]);
    ("erg", dict_literal [
       ("atomTypes", PyInt 0);
       ("fuzzIncrement", PyFloat (3 # 10));
       ("minPath", PyInt 1);
       ("maxPath", PyInt 15)]);
    ("estate", dict_literal []);
    ("avalon-count", dict_literal [
       ("nBits", PyInt 512);
       ("isQuery", PyBool false);
       ("bitFlags", avalonSimilarityBits)]);
    ("ecfp-count", dict_literal [
       ("radius", PyInt 3);
       ("fpSize", PyInt 2048);
       ("includeChirality", PyBool false);
       ("useBondTypes", PyBool true);
       ("countSimulation", PyBool false);
       ("countBounds", PyNone);
       ("atomInvariantsGenerator", PyNone);
       ("bondInvariantsGenerator", PyNone)]);
    ("fcfp-count", dict_literal [
       ("radius", PyInt 2);
       ("fpSize", PyInt 2048);
       ("includeChirality", PyBool false);
       ("useBondTypes", PyBool true);
       ("countSimulation", PyBool false);
       ("countBounds", PyNone);
       ("atomInvariantsGenerator", MorganFeatureAtomInvGen);
       ("bondInvariantsGenerator", PyNone)]);
    ("topological-count", dict_literal [
       ("includeChirality", PyBool false);
       ("torsionAtomCount", PyInt 4);
       ("countSimulation", PyBool true);
       ("countBounds", PyNone);
       ("fpSize", PyInt 2048);
       ("atomInvariantsGenerator", PyNone)]);
    ("atompair-count", dict_literal [
       ("minDistance", PyInt 1);
       ("maxDistance", PyInt 30);
       ("includeChirality", PyBool false);
       ("use2D", PyBool true);
       ("countSimulation", PyBool true);
       ("countBounds", PyNone);
       ("fpSize", PyInt 2048);
       ("atomInvariantsGenerator", PyNone)]);
    ("rdkit-count", dict_literal [
       ("minPath", PyInt 1);
       ("maxPath", PyInt 7);
       ("useHs", PyBool true);
       ("branchedPaths", PyBool true);
       ("useBondOrder", PyBool true);
       ("countSimulation", PyBool false);
       ("countBounds", PyNone);
       ("fpSize", PyInt 2048);
       ("numBitsPerFeature", PyInt 1);
       ("atomInvariantsGenerator", PyNone)])
  ].

#[global] Arguments _FP_GENERATORS : simpl never.
#[global] Arguments _FP_FUNCS : simpl never.
#[global] Arguments _FP_DEFAULT_ARGS : simpl never.

(** [list_supported_fingerprints] (lines 308-311). *)
Definition list_supported_fingerprints : gmap string callable := _FP_FUNCS.

(** ** The dispatcher [to_fp] (fp.py, lines 241-305) *)

(** [s.endswith(suffix)]. *)
Fixpoint starts_with (p s : list ascii) : bool :=
  match p, s with
  | [], _ => true
  | _ :: _, [] => false
  | a :: p', b :: s' => bool_decide (a = b) && starts_with p' s'
  end.

Definition endswith (s suffix : string) : bool :=
  starts_with (reverse (String.list_ascii_of_string suffix))
              (reverse (String.list_ascii_of_string s)).

(** [d.setdefault(key, value)]: a key already present keeps its value. *)
Definition setdefault (key : string) (value : pyval) (d : gmap string pyval)
  : gmap string pyval :=
  match d !! key with
  | Some _ => d
  | None => <[key := value]> d
  end.

(** The loop of lines 284-285 over [defaults.items()]. *)
Definition insert_defaults (defaults fp_args : gmap string pyval) : gmap string pyval :=
  map_fold setdefault fp_args defaults.

(** [not fold_size]: [None] and [0] are falsy. *)
Definition py_not (fold_size : option Z) : bool :=
  match fold_size with
  | None => true
  | Some n => bool_decide (n = 0)
  end.

(** The calls that leave the module, in the order they are made. *)
Inductive event : Type :=
| EvToMol (text : string)
| EvCall (f : callable) (kwargs : gmap string pyval)
| EvMakeGenerator (f : callable) (kwargs : gmap string pyval)
| EvGetFingerprint
| EvGetCountFingerprint.

(** A computation of the dispatcher: the calls made so far and the outcome. *)
Definition io (A : Type) : Type := (list event * result A)%type.

Definition io_ret {A : Type} (a : A) : io A := ([], Ok a).
Definition io_raise {A : Type} (e : exn) : io A := ([], Raise e).
Definition io_lift {A : Type} (r : result A) : io A := ([], r).
Definition io_call {A : Type} (ev : event) (r : result A) : io A := ([ev], r).

Definition io_bind {A B : Type} (m : io A) (k : A → io B) : io B :=
  match m with
  | (tr, Ok a) => let '(tr', r) := k a in (tr ++ tr', r)
  | (tr, Raise e) => (tr, Raise e)
  end.

Notation "'do!' x := m 'in' k" := (io_bind m (λ x, k))
  (at level 10, x pattern, m at level 100, k at level 200) : result_scope.

(** The molecule argument: text, a structure object, or [None]. *)
Inductive mol_input (Mol : Type) : Type :=
| MolText (s : string)
| MolObject (m : Mol)
| MolNone.
Arguments MolText {Mol} s.
Arguments MolObject {Mol} m.
Arguments MolNone {Mol}.

Definition unknown_fingerprint_error (fp_type : string) : exn :=
  ValueError ("The fingerprint '" +:+ fp_type +:+
              "' is not available. Use `dm.list_supported_fingerprints()` to " +:+
              "get a complete list of the available fingerprints.").

Definition invalid_molecule_error (mol : string) : exn :=
  ValueError ("It seems like the input molecule '" +:+ mol +:+ "' is invalid.").

Section Dispatcher.

(** The collaborators: the structure type, the parser [dm.to_mol], the
    direct RDKit functions, the EState fingerprinter behind the lambda of
    line 43, the generator factories and the two generator methods. *)
Context {Mol Generator : Type}.
Variable mol_str : Mol → string.
Variable to_mol : string → option Mol.
Variable rdkit_call : callable → Mol → gmap string pyval → result fingerprint.
Variable FingerprintMol : Mol → result (Np.ndarray * Np.ndarray).
Variable rdkit_generator : callable → gmap string pyval → result Generator.
Variable GetFingerprint : Generator → Mol → result fingerprint.
Variable GetCountFingerprint : Generator → Mol → result fingerprint.

(** [f"{mol}"]. *)
Definition mol_format (mol : mol_input Mol) : string :=
  match mol with
  | MolText s => s
  | MolObject m => mol_str m
  | MolNone => "None"
  end.

(** [fp_func(mol, **fp_args)] for an entry that is not a generator. *)
Definition call_direct (f : callable) (mol : Mol) (fp_args : gmap string pyval)
  : result fingerprint :=
  match f with
  | estate_lambda => result_map (λ r, NdArray r.1) (FingerprintMol mol)
  | _ => rdkit_call f mol fp_args
  end.

(** Lines 263-295: everything up to the native result. *)
Definition native_fingerprint (mol : mol_input Mol) (fp_type : string)
    (fp_args : gmap string pyval) : io fingerprint :=
  match _FP_FUNCS !! fp_type with
  | None => io_raise (unknown_fingerprint_error fp_type)
  | Some fp_func =>
      do! mol_obj :=
        match mol with
        | MolText s => io_call (EvToMol s) (Ok (to_mol s))
        | MolObject m => io_ret (Some m)
        | MolNone => io_ret None
        end in
      match mol_obj with
      | None => io_raise (invalid_molecule_error (mol_format mol))
      | Some mol =>
          do! defaults :=
            match _FP_DEFAULT_ARGS !! fp_type with
            | Some d => io_ret d
            | None => io_raise (KeyError fp_type)
            end in
          let fp_args := insert_defaults defaults fp_args in
          if bool_decide (is_Some (_FP_GENERATORS !! fp_type)) then
            do! fp_func := io_call (EvMakeGenerator fp_func fp_args)
                                   (rdkit_generator fp_func fp_args) in
            if endswith fp_type "-count"
            then io_call EvGetCountFingerprint (GetCountFingerprint fp_func mol)
            else io_call EvGetFingerprint (GetFingerprint fp_func mol)
          else
            io_call (EvCall fp_func fp_args) (call_direct fp_func mol fp_args)
      end
  end.

(** Lines 297-305: folding and conversion.  The defaults of the signature
    are [as_array=True], [fp_type="ecfp"] and [fold_size=None]. *)
Definition to_fp (mol : mol_input Mol) (as_array : bool) (fp_type : string)
    (fold_size : option Z) (fp_args : gmap string pyval) : io fingerprint :=
  do! fp := native_fingerprint mol fp_type fp_args in
  do! fp :=
    match fold_size with
    | Some dim => io_lift (result_map NdArray (fold_count_fp fp dim false))
    | None => io_ret fp
    end in
  if py_not fold_size && as_array
  then io_lift (result_map NdArray (fp_to_array fp))
  else io_ret fp.

End Dispatcher.

(** ** Definitions used to state the properties *)

(** The keyword arguments a call hands to the toolkit, if it takes any. *)
Definition event_kwargs (ev : event) : option (gmap string pyval) :=
  match ev with
  | EvCall _ kwargs | EvMakeGenerator _ kwargs => Some kwargs
  | EvToMol _ | EvGetFingerprint | EvGetCountFingerprint => None
  end.

(** The value a sparse fingerprint holds at each index: the count of a count
    map, 1 for every on bit of a bit set. *)
Definition sparse_counts (fp : fingerprint) : option (gmap Z Z) :=
  match fp with
  | SparseIntVect _ _ elems => Some elems
  | SparseBitVect _ s => Some (gset_to_gmap 1 s)
  | _ => None
  end.

(** The sum of the values at the indices [j] with [j mod dim = i]. *)
Definition class_sum (dim i : Z) (counts : gmap Z Z) : Z :=
  map_fold (λ j v acc, if bool_decide (j mod dim = i) then v + acc else acc) 0 counts.

(** The same sum over a list of (index, value) pairs. *)
Definition list_class_sum (dim i : Z) (l : list (Z * Z)) : Z :=
  foldr (λ jv acc, if bool_decide (jv.1 mod dim = i) then jv.2 + acc else acc) 0 l.

(** A Python number that denotes the integer [z]. *)
Definition denotes (x : Np.pynum) (z : Z) : Prop :=
  x = Np.PyInt z ∨ x = Np.PyFloat (Np.Ffin (inject_Z z)).

(** The sum of the values that a list of (index, value) pairs has at one
    index. *)
Definition point_sum (i : nat) (ivs : list (Z * Z)) : Z :=
  foldr (λ jv acc, if bool_decide (jv.1 = Z.of_nat i) then jv.2 + acc else acc) 0 ivs.

(** The folded array as the sums prescribe it. *)
Definition folded_sums (dim : Z) (counts : gmap Z Z) : list Z :=
  (λ i, class_sum dim i counts) <$> seqZ 0 dim.

(** The declared length of a sparse fingerprint ([GetNumBits], [GetLength]). *)
Definition declared_length (fp : fingerprint) : option Z :=
  match fp with
  | SparseBitVect n _ | SparseIntVect _ n _ => Some n
  | _ => None
  end.

(** The dense array of [n] cells that holds the value of every index of
    [counts] and 0 elsewhere. *)
Definition dense (n : Z) (counts : gmap Z Z) : list Z :=
  (λ i, default 0 (counts !! i)) <$> seqZ 0 n.

(** The sum of the cells of an array, and of the values of a sparse vector. *)
Definition array_sum (xs : list Z) : Z := foldr Z.add 0 xs.
Definition total (counts : gmap Z Z) : Z := map_fold (λ _ v acc, v + acc) 0 counts.

(** The cell [i] of a folded array is occupied when some index of the sparse
    vector falls into it. *)
Definition occupied (dim i : Z) (counts : gmap Z Z) : Prop :=
  map_Exists (λ j _, j mod dim = i) counts.

(** The presence array: 1 in the occupied cells, 0 in the others. *)
Definition presence (dim : Z) (counts : gmap Z Z) : list Z :=
  (λ i, if bool_decide (occupied dim i counts) then 1 else 0) <$> seqZ 0 dim.

(** The RDKit callables that build a generator; the others compute a
    fingerprint from a molecule. *)
Definition is_generator_factory (f : callable) : bool :=
  match f with
  | GetMorganGenerator | GetTopologicalTorsionGenerator
  | GetAtomPairGenerator | GetRDKitFPGenerator => true
  | _ => false
  end.

(** What [to_fp] does with the native result, by its two switches. *)
Definition postprocess (as_array : bool) (fold_size : option Z) (fp : fingerprint)
  : result fingerprint :=
  match fold_size with
  | Some dim => result_map NdArray (fold_count_fp fp dim false)
  | None => if as_array then result_map NdArray (fp_to_array fp) else Ok fp
  end.

Section Strategy.

Context {Mol Generator : Type}.
Variable to_mol : string → option Mol.
Variable rdkit_call : callable → Mol → gmap string pyval → result fingerprint.
Variable FingerprintMol : Mol → result (Np.ndarray * Np.ndarray).
Variable rdkit_generator : callable → gmap string pyval → result Generator.
Variable GetFingerprint : Generator → Mol → result fingerprint.
Variable GetCountFingerprint : Generator → Mol → result fingerprint.

(** The molecule argument resolves to the structure [m]: it is [m], or text
    that the parser maps to [m]. *)
Definition resolves (mol : mol_input Mol) (m : Mol) : Prop :=
  mol = MolObject m ∨ ∃ s, mol = MolText s ∧ to_mol s = Some m.

(** The use of the toolkit that a callable calls for: a factory builds a
    generator, whose count method is taken for a tag in [-count]; any other
    callable is applied to the molecule. *)
Definition toolkit_outcome (fp_type : string) (f : callable) (m : Mol)
    (kwargs : gmap string pyval) : result fingerprint :=
  if is_generator_factory f then
    let* g := rdkit_generator f kwargs in
    if endswith fp_type "-count" then GetCountFingerprint g m else GetFingerprint g m
  else call_direct rdkit_call FingerprintMol f m kwargs.

End Strategy.

(** Two small fingerprints of declared length 8 to run the functions on: a
    count map and a bit set. *)
Module Sample.

Definition counts : gmap Z Z := {[ 1 := 7; 3 := 3; 5 := 2 ]}.
Definition count_fp : fingerprint := SparseIntVect UIntSparse 8 counts.
Definition on_bits : gset Z := {[ 1; 2; 5 ]}.
Definition bit_fp : fingerprint := SparseBitVect 8 on_bits.

End Sample.

(** A miniature toolkit to run the dispatcher on: structures are their own
    notation, the parser knows ethanol only, the direct functions return a
    dense bit vector, the generators a count map. *)
Module Toy.

Definition Mol : Type := string.
Definition mol_str (m : Mol) : string := m.
Definition to_mol (s : string) : option Mol :=
  if bool_decide (s = "CCO") then Some s else None.
Definition rdkit_call (f : callable) (m : Mol) (kwargs : gmap string pyval)
  : result fingerprint := Ok (ExplicitBitVect [true; false; true; true]).
Definition FingerprintMol (m : Mol) : result (Np.ndarray * Np.ndarray) :=
  Ok (Np.IntArray [0; 2; 1], Np.FloatArray [Np.Ffin 0; Np.Ffin 1; Np.Ffin 0]).
Definition rdkit_generator (f : callable) (kwargs : gmap string pyval)
  : result callable := Ok f.
Definition GetFingerprint (g : callable) (m : Mol) : result fingerprint :=
  Ok (ExplicitBitVect [false; true; true; false]).
Definition GetCountFingerprint (g : callable) (m : Mol) : result fingerprint :=
  Ok (SparseIntVect UIntSparse 2048 {[ 5 := 2; 13 := 3; 1 := 7 ]}).

Definition to_fp := to_fp mol_str to_mol rdkit_call FingerprintMol
                          rdkit_generator GetFingerprint GetCountFingerprint.

(** A call of the ErG fingerprint that overrides one default. *)
Definition erg_args : gmap string pyval := {[ "maxPath" := PyInt 10 ]}.
Definition erg_kwargs : gmap string pyval :=
  dict_literal [
    ("atomTypes", PyInt 0);
    ("fuzzIncrement", PyFloat (3 # 10));
    ("minPath", PyInt 1);
    ("maxPath", PyInt 10)
  ].

End Toy.

(** * Properties *)

(** ** Results *)

Lemma result_map_Ok {A B : Type} (f : A → B) (r : result A) (b : B) :
  result_map f r = Ok b ↔ ∃ a, r = Ok a ∧ b = f a.
Proof.
  destruct r as [a|e]; simpl; split.
  - intros [= <-]. by exists a.
  - by intros (a' & [= <-] & ->).
  - discriminate.
  - by intros (a' & ? & _).
Qed.

Lemma result_bind_Ok {A B : Type} (r : result A) (k : A → result B) (b : B) :
  result_bind r k = Ok b ↔ ∃ a, r = Ok a ∧ k a = Ok b.
Proof.
  destruct r as [a|e]; simpl; split; try discriminate.
  - intros Hk. by exists a.
  - by intros (a' & [= <-] & Hk).
  - by intros (a' & ? & _).
Qed.

(** ** The vector normaliser *)

(** C6.  [fp_to_array] hands an array back as it is, so converting twice is
    the same as converting once. *)
Theorem fp_to_array_dense_idempotent (x : Np.ndarray) :
  fp_to_array (NdArray x) = Ok x ∧
  (let* y := fp_to_array (NdArray x) in fp_to_array (NdArray y))
  = fp_to_array (NdArray x).
Proof. split; reflexivity. Qed.

Lemma array_nil : Np.array [] = Np.FloatArray [].
Proof. reflexivity. Qed.

Lemma items_empty {V : Type} : items (∅ : gmap Z V) = [].
Proof. unfold items. apply map_to_list_empty. Qed.

Lemma GetOnBits_empty : GetOnBits ∅ = [].
Proof. unfold GetOnBits. apply elements_empty. Qed.

(** C10.  On a sparse bit set without on bits and on a count map without
    entries [fp_to_array] raises: the zero array of the declared length is
    allocated (or refused, for a negative length) but never returned. *)
Theorem fp_to_array_empty_sparse_raises :
  (∀ num_bits : Z,
     fp_to_array (SparseBitVect num_bits ∅) =
     if bool_decide (num_bits < 0)
     then Raise (ValueError "negative dimensions are not allowed")
     else Raise Np.float_index_error) ∧
  (∀ (kind : intvect_kind) (len : Z),
     fp_to_array (SparseIntVect kind len ∅) =
     if bool_decide (len < 0)
     then Raise (ValueError "negative dimensions are not allowed")
     else Raise (ValueError "not enough values to unpack (expected 2, got 0)")) ∧
  (∀ num_bits : Z, returns (fp_to_array (SparseBitVect num_bits ∅)) = false) ∧
  (∀ (kind : intvect_kind) (len : Z),
     returns (fp_to_array (SparseIntVect kind len ∅)) = false).
Proof.
  assert (Hbit : ∀ num_bits : Z,
     fp_to_array (SparseBitVect num_bits ∅) =
     if bool_decide (num_bits < 0)
     then Raise (ValueError "negative dimensions are not allowed")
     else Raise Np.float_index_error).
  { intros n. unfold fp_to_array, Np.zeros. rewrite GetOnBits_empty.
    by case_bool_decide. }
  assert (Hcnt : ∀ (kind : intvect_kind) (len : Z),
     fp_to_array (SparseIntVect kind len ∅) =
     if bool_decide (len < 0)
     then Raise (ValueError "negative dimensions are not allowed")
     else Raise (ValueError "not enough values to unpack (expected 2, got 0)")).
  { intros k n. unfold fp_to_array, Np.zeros, GetNonzeroElements.
    rewrite fmap_empty, items_empty. by case_bool_decide. }
  split_and!; [done | done | |].
  - intros n. rewrite Hbit. by case_bool_decide.
  - intros k n. rewrite Hcnt. by case_bool_decide.
Qed.

(** ** The folder: type dispatch *)

Lemma wrong_type_error_neq_index (fp : fingerprint) (msg : string) :
  wrong_type_error fp ≠ IndexError msg.
Proof. discriminate. Qed.

Lemma update_at_error {V : Type} (op : V → Z → Z) (ivs : list (Z * V)) (a : list Z) (e : exn) :
  Np.update_at op a ivs = Raise e → ∃ msg, e = IndexError msg.
Proof.
  revert a. induction ivs as [|[j v] ivs IH]; intros a; simpl; [discriminate|].
  unfold Np.index. repeat case_bool_decide; simpl; eauto.
  intros [= <-]. eauto.
Qed.

(** The errors [np.add.at] can raise. *)
Lemma add_at_error (a : list Z) (i v : Np.ndarray) (e : exn) :
  Np.add_at a i v = Raise e →
  (∃ msg, e = IndexError msg) ∨ e = Np.shape_mismatch_error.
Proof.
  unfold Np.add_at. destruct i as [js|fs].
  - destruct v as [vs|fs]; case_bool_decide; try (intros [= <-]; by right);
      intros Hup%update_at_error; by left.
  - intros [= <-]. left. by eexists.
Qed.

(** Past the type dispatch, [fold_count_fp] only fails inside NumPy. *)
Lemma fold_count_fp_sparse_error (fp : fingerprint) (tmp : gmap Z Np.pynum)
    (dim : Z) (binary : bool) (e : exn) :
  fold_input fp = Ok tmp →
  fold_count_fp fp dim binary = Raise e →
  (∃ msg, e = IndexError msg) ∨ e = Np.shape_mismatch_error ∨
  e = ValueError "negative dimensions are not allowed".
Proof.
  intros Htmp. unfold fold_count_fp. rewrite Htmp. simpl.
  unfold Np.zeros. case_bool_decide; simpl.
  { intros [= <-]. auto. }
  destruct (Np.add_at _ _ _) as [folded|e'] eqn:Hadd; simpl; [discriminate|].
  intros [= <-]. apply add_at_error in Hadd. tauto.
Qed.

(** C5.  [fold_count_fp] rejects a dense array, a dense bit vector and any
    other object with the error that names the type of its argument; the two
    sparse representations pass the type dispatch, whatever the dimension and
    the flag. *)
Theorem fold_count_fp_type_dispatch (dim : Z) (binary : bool) :
  (∀ a : Np.ndarray,
     fold_count_fp (NdArray a) dim binary =
     Raise (ValueError "The fingerprint is of wrong type: <class 'numpy.ndarray'>")) ∧
  (∀ bits : list bool,
     fold_count_fp (ExplicitBitVect bits) dim binary =
     Raise (ValueError ("The fingerprint is of wrong type: " +:+
       "<class 'rdkit.DataStructs.cDataStructs.ExplicitBitVect'>"))) ∧
  (∀ name : string,
     fold_count_fp (OtherObject name) dim binary =
     Raise (ValueError ("The fingerprint is of wrong type: <class '" +:+ name +:+ "'>"))) ∧
  (∀ (n : Z) (s : gset Z),
     fold_count_fp (SparseBitVect n s) dim binary
     ≠ Raise (wrong_type_error (SparseBitVect n s))) ∧
  (∀ (k : intvect_kind) (n : Z) (m : gmap Z Z),
     fold_count_fp (SparseIntVect k n m) dim binary
     ≠ Raise (wrong_type_error (SparseIntVect k n m))).
Proof.
  split_and!; try done.
  - intros n s H.
    eapply fold_count_fp_sparse_error in H as [[msg H]|[H|H]]; [..|done]; done.
  - intros k n m H.
    eapply fold_count_fp_sparse_error in H as [[msg H]|[H|H]]; [..|done]; done.
Qed.

(** ** The folder: accumulation *)

Lemma int_mod_twice (dim k : Z) :
  0 < dim → Np.int_mod dim (Np.int_mod dim k) = k mod dim.
Proof.
  intros Hdim. unfold Np.int_mod. case_bool_decide; [lia|].
  apply Z.mod_mod. lia.
Qed.

(** Adding the float64 of an integer into an integer cell adds the integer. *)
Lemma add_float_integral (z x : Z) : Np.add_float (Np.Ffin (inject_Z z)) x = z + x.
Proof.
  unfold Np.add_float, Np.f64_to_int. simpl. rewrite Z.quot_1_r. lia.
Qed.

Lemma update_at_ext {V W : Type} (op : V → Z → Z) (op' : W → Z → Z)
    (js : list Z) (vs : list V) (ws : list W) (a : list Z) :
  Forall2 (λ v w, ∀ x, op v x = op' w x) vs ws →
  Np.update_at op a (zip js vs) = Np.update_at op' a (zip js ws).
Proof.
  intros Hvw. revert js a.
  induction Hvw as [|v w vs ws Hop _ IH]; intros [|j js] a; simpl; try done.
  destruct (Np.index (length a) j) as [k|e]; simpl; [|done].
  rewrite <- IH. f_equal. apply list_eq. intros i.
  rewrite !list_lookup_alter. case_decide; [|done].
  destruct (a !! k); simpl; by rewrite ?Hop.
Qed.

(** [np.add.at] with the array of values that denote integers adds these
    integers, whichever dtype [np.array] gave the values. *)
Lemma add_at_denoted (a js zs : list Z) (vals : list Np.pynum) :
  Forall2 denotes vals zs →
  length js = length zs →
  vals ≠ [] →
  Np.add_at a (Np.IntArray js) (Np.array vals) = Np.update_at Z.add a (zip js zs).
Proof.
  intros Hden Hlen Hne. unfold Np.add_at, Np.array.
  destruct vals as [|v vals']; [done|]. clear Hne.
  set (vals := v :: vals') in *.
  assert (Hlen' : length vals = length zs) by by eapply Forall2_length.
  destruct (forallb Np.pynum_is_int vals) eqn:Hint.
  - rewrite length_fmap, bool_decide_eq_true_2 by congruence.
    f_equal. f_equal. clearbody vals. clear Hlen Hlen'.
    induction Hden as [|x z xs zs' [->| ->] _ IH]; simpl in *; [done|..].
    + f_equal. by apply IH.
    + done.
  - rewrite length_fmap, bool_decide_eq_true_2 by congruence.
    apply update_at_ext. clear Hint Hlen Hlen'. clearbody vals.
    induction Hden as [|x z xs zs' Hx _ IH]; simpl; constructor; [|done].
    intros y. destruct Hx as [-> | ->]; simpl; apply add_float_integral.
Qed.

(** With every index inside the array, the loop of [np.add.at] returns, and
    each cell has grown by the values addressed to it. *)
Lemma update_at_add (ivs : list (Z * Z)) (a : list Z) :
  Forall (λ jv, 0 ≤ jv.1 < Z.of_nat (length a)) ivs →
  ∃ a', Np.update_at Z.add a ivs = Ok a' ∧
        ∀ i, a' !! i = (λ x, x + point_sum i ivs) <$> a !! i.
Proof.
  revert a. induction ivs as [|[j v] ivs IH]; intros a Hin; simpl.
  - exists a. split; [done|]. intros i. destruct (a !! i); simpl; [|done].
    f_equal. lia.
  - apply Forall_cons in Hin as [Hj Hin]. simpl in Hj.
    unfold Np.index. rewrite bool_decide_eq_true_2 by done. simpl.
    destruct (IH (alter (Z.add v) (Z.to_nat j) a)) as (a' & Ha' & Hlook).
    { by rewrite length_alter. }
    exists a'. split; [done|]. intros i. rewrite Hlook, list_lookup_alter.
    case_decide as Hi.
    + subst i. rewrite bool_decide_eq_true_2 by lia.
      destruct (a !! Z.to_nat j); simpl; [|done]. f_equal. lia.
    + rewrite bool_decide_eq_false_2 by lia. done.
Qed.

Lemma point_sum_mod (dim : Z) (i : nat) (l : list (Z * Z)) :
  point_sum i (prod_map (λ k, k mod dim) id <$> l) = list_class_sum dim (Z.of_nat i) l.
Proof.
  unfold point_sum, list_class_sum.
  induction l as [|[k v] l IH]; [done|].
  rewrite fmap_cons. cbn [foldr prod_map fst snd id]. by rewrite IH.
Qed.

Lemma zip_fmap_fst_snd {A B A' B' : Type} (f : A → A') (g : B → B') (l : list (A * B)) :
  zip (f <$> l.*1) (g <$> l.*2) = prod_map f g <$> l.
Proof. induction l as [|[x y] l IH]; csimpl; [done|]. by rewrite IH. Qed.

#[global] Instance list_class_sum_perm (dim i : Z) :
  Proper (Permutation ==> eq) (list_class_sum dim i).
Proof.
  intros l1 l2 Hperm. unfold list_class_sum.
  induction Hperm as [|[j v] l1 l2 _ IH|[j v] [j' v'] l|l1 l2 l3 _ IH1 _ IH2]; simpl.
  - done.
  - by rewrite IH.
  - repeat case_bool_decide; lia.
  - congruence.
Qed.

Lemma class_sum_list (dim i : Z) (counts : gmap Z Z) :
  class_sum dim i counts = list_class_sum dim i (map_to_list counts).
Proof.
  unfold class_sum, list_class_sum. rewrite map_fold_foldr.
  apply foldr_ext; [|done..]. by intros [j v] acc.
Qed.

(** [np.array] of a non-empty list of Python ints is an integer array. *)
Lemma array_ints (ks : list Z) :
  ks ≠ [] → Np.array (Np.PyInt <$> ks) = Np.IntArray ks.
Proof.
  intros Hne. destruct ks as [|k ks]; [done|]. unfold Np.array.
  rewrite fmap_cons.
  assert (Hall : ∀ l, forallb Np.pynum_is_int (Np.PyInt <$> l) = true).
  { intros l. induction l as [|x l IH]; [done|]. rewrite fmap_cons. exact IH. }
  rewrite <- fmap_cons, Hall. f_equal.
  rewrite <- list_fmap_compose. apply list_fmap_id.
Qed.

(** The accumulation of lines 348-356 on the int pairs [l]: the folded array
    holds the class sums. *)
Lemma accumulate_sums (dim : Z) (l : list (Z * Z)) (vals : list Np.pynum) :
  0 < dim →
  l ≠ [] →
  Forall2 denotes vals l.*2 →
  (let* folded := Np.zeros dim in
   Np.add_at folded
     (Np.mod_ (Np.mod_ (Np.array (Np.PyInt <$> l.*1)) dim) dim)
     (Np.array vals))
  = Ok ((λ i, list_class_sum dim i l) <$> seqZ 0 dim).
Proof.
  intros Hdim Hne Hden. unfold Np.zeros. rewrite bool_decide_eq_false_2 by lia.
  simpl.
  rewrite array_ints by (by destruct l).
  cbn [Np.mod_ result_bind]. rewrite <- list_fmap_compose.
  rewrite add_at_denoted with (zs := l.*2); [|done|by rewrite !length_fmap|].
  2:{ intros ->. apply Forall2_nil_inv_l in Hden. by destruct l. }
  rewrite <- (list_fmap_id l.*2), zip_fmap_fst_snd.
  destruct (update_at_add (prod_map (Np.int_mod dim ∘ Np.int_mod dim) id <$> l)
              (replicate (Z.to_nat dim) 0)) as (a' & -> & Hlook).
  { rewrite length_replicate, Forall_fmap. apply Forall_forall. intros [k v] _. simpl.
    rewrite int_mod_twice by done. pose proof (Z.mod_pos_bound k dim). lia. }
  f_equal. apply list_eq. intros i. rewrite Hlook, list_lookup_fmap.
  destruct (decide (i < Z.to_nat dim)%nat) as [Hi|Hi].
  - rewrite lookup_replicate_2 by done. rewrite lookup_seqZ_lt by lia. simpl.
    f_equal. rewrite !Z.add_0_l. rewrite <- point_sum_mod. f_equal.
    apply list_fmap_ext. intros _ [k v] _. simpl. f_equal.
    by apply int_mod_twice.
  - rewrite lookup_seqZ_ge by lia.
    assert (Hnone : replicate (Z.to_nat dim) 0 !! i = None)
      by (apply lookup_replicate_None; lia).
    by rewrite Hnone.
Qed.

Lemma result_bind_assoc {A B C : Type} (r : result A) (f : A → result B)
    (g : B → result C) :
  result_bind (result_bind r f) g = result_bind r (λ a, result_bind (f a) g).
Proof. by destruct r. Qed.

(** [fold_count_fp] past the type dispatch: accumulate, then clip if asked. *)
Lemma fold_count_fp_unfold (fp : fingerprint) (tmp : gmap Z Np.pynum) (dim : Z)
    (binary : bool) :
  fold_input fp = Ok tmp →
  fold_count_fp fp dim binary =
  let* folded :=
    (let* zs := Np.zeros dim in
     Np.add_at zs
       (Np.mod_ (Np.mod_ (Np.array (Np.PyInt <$> keys tmp)) dim) dim)
       (Np.array (values tmp))) in
  Ok (Np.IntArray (if binary then Np.clip 0 1 folded else folded)).
Proof.
  intros Htmp. unfold fold_count_fp. rewrite Htmp. cbn [result_bind].
  by rewrite result_bind_assoc.
Qed.

(** The dict built from the on bits maps every on bit to [1.0]. *)
Lemma py_dict_on_bits (s : gset Z) (x : Np.pynum) :
  py_dict (zip (elements s) (replicate (length (elements s)) x)) = gset_to_gmap x s.
Proof.
  assert (Hgen : ∀ (ks : list Z) (d : gmap Z Np.pynum) (k : Z),
    foldl (λ d kv, <[kv.1 := kv.2]> d) d (zip ks (replicate (length ks) x)) !! k
    = if bool_decide (k ∈ ks) then Some x else d !! k).
  { intros ks. induction ks as [|k' ks IH]; intros d k.
    - cbn [length replicate zip_with foldl].
      case_bool_decide as Hin; [by apply elem_of_nil in Hin|done].
    - cbn [length replicate zip_with foldl fst snd]. rewrite IH.
      destruct (decide (k ∈ ks)) as [Hin|Hin].
      + rewrite !bool_decide_eq_true_2; [done| by right | done].
      + rewrite (bool_decide_eq_false_2 (k ∈ ks)) by done.
        destruct (decide (k' = k)) as [->|Hne].
        * rewrite lookup_insert_eq. by rewrite bool_decide_eq_true_2 by left.
        * rewrite lookup_insert_ne by done.
          rewrite bool_decide_eq_false_2; [done|].
          intros [?|?]%elem_of_cons; congruence. }
  apply map_eq. intros k. unfold py_dict. rewrite Hgen, lookup_empty.
  rewrite lookup_gset_to_gmap.
  destruct (decide (k ∈ s)) as [Hin|Hin].
  - rewrite bool_decide_eq_true_2 by by apply elem_of_elements.
    by rewrite option_guard_True.
  - rewrite bool_decide_eq_false_2 by by rewrite elem_of_elements.
    by rewrite option_guard_False.
Qed.

(** What the accumulation sees of a sparse fingerprint: the pairs of its
    dict, in the order of the dict, as integers. *)
Lemma fold_input_pairs (fp : fingerprint) (counts : gmap Z Z) :
  sparse_counts fp = Some counts →
  ∃ (tmp : gmap Z Np.pynum) (l : list (Z * Z)),
    fold_input fp = Ok tmp ∧ keys tmp = l.*1 ∧
    Forall2 denotes (values tmp) l.*2 ∧ l ≡ₚ map_to_list counts.
Proof.
  destruct fp as [a|n s|bits|k n m|name]; simpl; intros [= <-].
  - exists (gset_to_gmap (Np.PyFloat (Np.Ffin 1)) s).
    destruct (Permutation_map_inv (λ k : Z, (k, Np.PyFloat (Np.Ffin 1))) (elements s)
                (map_to_list_gset_to_gmap s (Np.PyFloat (Np.Ffin 1))))
      as (ks & Hks & Hperm).
    change (map ?f ks) with (f <$> ks) in Hks.
    exists ((λ k : Z, (k, 1)) <$> ks). split_and!.
    + unfold GetOnBits, Np.ones. f_equal.
      rewrite fmap_replicate. apply py_dict_on_bits.
    + unfold keys. rewrite Hks.
      rewrite <- !list_fmap_compose. by apply list_fmap_ext.
    + unfold values. rewrite Hks.
      rewrite <- !list_fmap_compose. clear.
      induction ks as [|k ks IH]; csimpl; constructor; [by right|done].
    + rewrite map_to_list_gset_to_gmap. by rewrite Hperm.
  - exists (GetNonzeroElements m), (map_to_list m). split_and!; [done|..|done].
    + unfold keys, GetNonzeroElements. rewrite map_to_list_fmap.
      rewrite <- list_fmap_compose. by apply list_fmap_ext; intros ? [? ?].
    + unfold values, GetNonzeroElements. rewrite map_to_list_fmap.
      rewrite <- list_fmap_compose.
      induction (map_to_list m) as [|[j v] l IH]; csimpl; constructor; [by left|done].
Qed.


(** On a sparse fingerprint without entries the index array is the empty
    float64 array, which [np.add.at] refuses. *)
Lemma fold_count_fp_no_entries (fp : fingerprint) (dim : Z) (binary : bool) :
  sparse_counts fp = Some ∅ →
  fold_count_fp fp dim binary =
  if bool_decide (dim < 0)
  then Raise (ValueError "negative dimensions are not allowed")
  else Raise Np.float_index_error.
Proof.
  intros Hfp.
  destruct (fold_input_pairs fp ∅ Hfp) as (tmp & l & Htmp & Hkeys & Hvals & Hperm).
  rewrite map_to_list_empty in Hperm. apply Permutation_nil_r in Hperm. subst l.
  rewrite (fold_count_fp_unfold fp tmp) by done. rewrite Hkeys.
  unfold Np.zeros. by case_bool_decide.
Qed.

(** C1.  The failing input: on a bit set without on bits and on a count map
    without entries [fold_count_fp] raises instead of returning the array of
    1024 zeros that the sums prescribe. *)
Theorem fold_count_fp_empty_input :
  fold_count_fp (SparseBitVect 2048 ∅) 1024 false = Raise Np.float_index_error ∧
  fold_count_fp (SparseIntVect UIntSparse 2048 ∅) 1024 false
    = Raise Np.float_index_error ∧
  folded_sums 1024 ∅ = replicate 1024 0.
Proof.
  split_and!.
  - by rewrite fold_count_fp_no_entries by (simpl; by rewrite gset_to_gmap_empty).
  - by rewrite fold_count_fp_no_entries.
  - vm_compute. reflexivity.
Qed.

(** The binary fold is the clipped count fold, outcome for outcome, and an
    array it returns holds zeros and ones only. *)
Theorem fold_count_fp_binary_clip (fp : fingerprint) (dim : Z) :
  fold_count_fp fp dim true
    = result_map (Np.clip_array 0 1) (fold_count_fp fp dim false) ∧
  match fold_count_fp fp dim true with
  | Ok a => ∃ xs, a = Np.IntArray xs ∧ Forall (λ x, x = 0 ∨ x = 1) xs
  | Raise _ => True
  end.
Proof.
  unfold fold_count_fp.
  destruct (fold_input fp) as [tmp|e]; cbn [result_bind result_map]; [|done].
  destruct (Np.zeros dim) as [zs|e]; cbn [result_bind]; [|done].
  destruct (Np.add_at zs _ _) as [folded|e]; cbn [result_bind]; [|done].
  split; [done|]. eexists; split; [done|].
  unfold Np.clip. apply Forall_fmap, Forall_forall. intros x _. simpl. lia.
Qed.

(** C3.  The failing input: with [binary=True] too, a sparse fingerprint
    without entries makes [fold_count_fp] raise, where the clipped fold is an
    array of zeros. *)
Theorem fold_count_fp_binary_empty_input :
  fold_count_fp (SparseBitVect 2048 ∅) 1024 true = Raise Np.float_index_error ∧
  fold_count_fp (SparseIntVect UIntSparse 2048 ∅) 1024 true
    = Raise Np.float_index_error ∧
  Np.clip 0 1 (folded_sums 1024 ∅) = replicate 1024 0.
Proof.
  split_and!.
  - by rewrite fold_count_fp_no_entries by (simpl; by rewrite gset_to_gmap_empty).
  - by rewrite fold_count_fp_no_entries.
  - vm_compute. reflexivity.
Qed.

(** ** The vector normaliser on sparse and bit-vector arguments *)

Lemma update_at_returns {V : Type} (op : V → Z → Z) (ivs : list (Z * V)) (a : list Z) :
  returns (Np.update_at op a ivs) = true ↔
  Forall (λ jv, - Z.of_nat (length a) ≤ jv.1 < Z.of_nat (length a)) ivs.
Proof.
  revert a. induction ivs as [|[j v] ivs IH]; intros a; cbn [Np.update_at].
  - split; [constructor|done].
  - rewrite Forall_cons. cbn [fst]. unfold Np.index.
    destruct (decide (0 ≤ j < Z.of_nat (length a))) as [Hj|Hj].
    + rewrite bool_decide_eq_true_2 by done. cbn [result_bind].
      rewrite IH, length_alter. split; [split; [lia|done]|tauto].
    + rewrite bool_decide_eq_false_2 by done.
      destruct (decide (- Z.of_nat (length a) ≤ j < 0)) as [Hj'|Hj'].
      * rewrite bool_decide_eq_true_2 by done. cbn [result_bind].
        rewrite IH, length_alter. split; [split; [lia|done]|tauto].
      * rewrite bool_decide_eq_false_2 by done. cbn [result_bind returns].
        split; [done|]. intros [? _]. lia.
Qed.

(** Index assignment with distinct indices inside the array: every cell that
    is addressed holds its value afterwards, the others are unchanged. *)
Lemma update_at_assign (ivs : list (Z * Z)) (a : list Z) :
  NoDup ivs.*1 →
  Forall (λ jv, 0 ≤ jv.1 < Z.of_nat (length a)) ivs →
  ∃ a', Np.update_at (λ v _, v) a ivs = Ok a' ∧
        ∀ i, a' !! i =
             (λ x, default x ((list_to_map ivs : gmap Z Z) !! Z.of_nat i)) <$> a !! i.
Proof.
  revert a. induction ivs as [|[j v] ivs IH]; intros a Hnd Hin.
  - exists a. split; [done|]. intros i. cbn [list_to_map foldr].
    rewrite lookup_empty. by destruct (a !! i).
  - rewrite fmap_cons in Hnd. apply NoDup_cons in Hnd as [Hj Hnd].
    apply Forall_cons in Hin as [Hjr Hin]. cbn [fst] in Hj, Hjr.
    cbn [Np.update_at]. unfold Np.index.
    rewrite bool_decide_eq_true_2 by done. cbn [result_bind].
    destruct (IH (alter (λ _, v) (Z.to_nat j) a) Hnd) as (a' & Ha' & Hlook).
    { by rewrite length_alter. }
    exists a'. split; [done|]. intros i.
    rewrite Hlook, list_lookup_alter, list_to_map_cons.
    case_decide as Hi.
    + subst i. rewrite Z2Nat.id by lia. rewrite lookup_insert_eq.
      rewrite (not_elem_of_list_to_map_1 _ _ Hj).
      by destruct (a !! Z.to_nat j).
    + rewrite lookup_insert_ne by lia. done.
Qed.

(** Assigning the pairs of a sparse vector into the zero array gives its
    dense form. *)
Lemma assign_dense (ivs : list (Z * Z)) (counts : gmap Z Z) (n : Z) :
  NoDup ivs.*1 →
  list_to_map ivs = counts →
  (∀ j, is_Some (counts !! j) → 0 ≤ j < n) →
  Np.update_at (λ v _, v) (replicate (Z.to_nat n) 0) ivs = Ok (dense n counts).
Proof.
  intros Hnd Hmap Hrange.
  destruct (update_at_assign ivs (replicate (Z.to_nat n) 0) Hnd) as (a' & -> & Hlook).
  { rewrite length_replicate. apply Forall_forall. intros [j v] Hjv. cbn [fst].
    assert (0 ≤ j < n); [|lia]. apply Hrange. rewrite <- Hmap.
    exists v. by apply elem_of_list_to_map. }
  f_equal. apply list_eq. intros i. rewrite Hlook, Hmap. unfold dense.
  rewrite list_lookup_fmap.
  destruct (decide (i < Z.to_nat n)%nat) as [Hi|Hi].
  - rewrite lookup_replicate_2 by done. rewrite lookup_seqZ_lt by lia.
    by rewrite Z.add_0_l.
  - rewrite lookup_seqZ_ge by lia.
    assert (Hnone : replicate (Z.to_nat n) 0 !! i = None)
      by (apply lookup_replicate_None; lia).
    by rewrite Hnone.
Qed.

Lemma array_items_T_ints (l : list (Z * Z)) :
  l ≠ [] →
  Np.array_items_T (prod_map id Np.PyInt <$> l) = [Np.IntArray l.*1; Np.IntArray l.*2].
Proof.
  intros Hne. destruct l as [|[j v] l]; [done|]. unfold Np.array_items_T.
  rewrite fmap_cons.
  assert (Hall : ∀ l' : list (Z * Z),
            forallb Np.pynum_is_int (prod_map id Np.PyInt <$> l').*2 = true).
  { intros l'. induction l' as [|[? ?] l' IH]; [done|]. exact IH. }
  rewrite <- fmap_cons, Hall. rewrite <- !list_fmap_compose.
  set (l0 := (j, v) :: l).
  assert (fst ∘ prod_map id Np.PyInt <$> l0 = l0.*1) as ->
    by (apply list_fmap_ext; by intros ? [? ?]).
  assert (Np.pynum_int ∘ snd ∘ prod_map id Np.PyInt <$> l0 = l0.*2) as ->
    by (apply list_fmap_ext; by intros ? [? ?]).
  done.
Qed.

Lemma list_to_map_on_bits (s : gset Z) :
  list_to_map ((λ j : Z, (j, 1)) <$> elements s) = gset_to_gmap 1 s.
Proof.
  rewrite <- (list_to_map_to_list (gset_to_gmap 1 s)).
  symmetry. apply list_to_map_proper.
  - apply NoDup_fst_map_to_list.
  - apply map_to_list_gset_to_gmap.
Qed.

(** The index-value pairs that [fp_to_array] assigns for a sparse argument
    that has an entry. *)
Lemma fp_to_array_sparse (fp : fingerprint) (counts : gmap Z Z) (n : Z) :
  sparse_counts fp = Some counts →
  declared_length fp = Some n →
  counts ≠ ∅ →
  ∃ ivs : list (Z * Z),
    NoDup ivs.*1 ∧ list_to_map ivs = counts ∧
    fp_to_array fp =
      (let* tmp := Np.zeros n in
       let* tmp := Np.update_at (λ v _, v) tmp ivs in
       Ok (Np.IntArray tmp)).
Proof.
  destruct fp as [a|n' s|bits|k n' m|name]; cbn [sparse_counts declared_length];
    intros [= <-] [= ->] Hne.
  - exists ((λ j : Z, (j, 1)) <$> elements s). split_and!.
    + rewrite <- list_fmap_compose.
      assert (fst ∘ (λ j : Z, (j, 1)) <$> elements s = elements s) as ->
        by apply list_fmap_id.
      apply NoDup_elements.
    + apply list_to_map_on_bits.
    + unfold fp_to_array, GetOnBits. rewrite array_ints; [done|].
      intros Hnil. apply Hne. apply elements_empty_iff in Hnil.
      apply leibniz_equiv in Hnil. subst s. apply gset_to_gmap_empty.
  - exists (map_to_list m). split_and!.
    + apply NoDup_fst_map_to_list.
    + apply list_to_map_to_list.
    + unfold fp_to_array, items, GetNonzeroElements.
      rewrite map_to_list_fmap, array_items_T_ints
        by (by intros ?%map_to_list_empty_iff).
      cbn [unpack2 result_bind Np.setitem].
      rewrite !length_fmap, bool_decide_eq_true_2 by done.
      by rewrite zip_fst_snd.
Qed.


(** A dense bit vector is decoded to the array of its bits, 1 for a set bit
    and 0 for a clear one, of the length of the vector. *)
Theorem fp_to_array_bit_vector (bits : list bool) :
  fp_to_array (ExplicitBitVect bits) = Ok (Np.IntArray (Z.b2z <$> bits)).
Proof.
  unfold fp_to_array. do 2 f_equal.
  induction bits as [|b bits IH]; [done|].
  cbn [ToBitString foldr]. unfold encode, Np.frombuffer_u1_sub in *.
  cbn [String.list_ascii_of_string]. rewrite !fmap_cons. f_equal; [|exact IH].
  by destruct b.
Qed.

Lemma fp_to_array_no_entries (fp : fingerprint) :
  sparse_counts fp = Some ∅ → returns (fp_to_array fp) = false.
Proof.
  destruct fp as [a|n s|bits|k n m|name]; cbn [sparse_counts]; intros [= Hempty].
  - assert (s = ∅) as ->.
    { apply (f_equal dom) in Hempty. by rewrite dom_gset_to_gmap, dom_empty_L in Hempty. }
    unfold fp_to_array, Np.zeros. rewrite GetOnBits_empty.
    by case_bool_decide.
  - subst m. unfold fp_to_array, Np.zeros, GetNonzeroElements.
    rewrite fmap_empty, items_empty. by case_bool_decide.
Qed.


(** ** The folder: when it returns, what it preserves *)

(** The folder on a sparse fingerprint that has an entry, for a positive
    width and either value of the flag. *)
Lemma fold_count_fp_on_counts (fp : fingerprint) (counts : gmap Z Z) (dim : Z)
    (binary : bool) :
  sparse_counts fp = Some counts →
  counts ≠ ∅ →
  0 < dim →
  fold_count_fp fp dim binary =
  Ok (Np.IntArray (if binary then Np.clip 0 1 (folded_sums dim counts)
                   else folded_sums dim counts)).
Proof.
  intros Hfp Hne Hdim.
  destruct (fold_input_pairs fp counts Hfp) as (tmp & l & Htmp & Hkeys & Hvals & Hperm).
  rewrite (fold_count_fp_unfold fp tmp) by done.
  assert (Hl : l ≠ []).
  { intros ->. apply Permutation_nil_l in Hperm. symmetry in Hperm.
    by apply map_to_list_empty_iff in Hperm. }
  rewrite Hkeys, accumulate_sums by done. cbn [result_bind].
  assert ((λ i, list_class_sum dim i l) <$> seqZ 0 dim = folded_sums dim counts) as ->; [|done].
  unfold folded_sums. apply list_fmap_ext. intros _ i _.
  by rewrite class_sum_list, Hperm.
Qed.

(** With width 0 the accumulation has no cell to add to. *)
Lemma fold_count_fp_zero_width (fp : fingerprint) (binary : bool) :
  returns (fold_count_fp fp 0 binary) = false.
Proof.
  destruct (sparse_counts fp) as [counts|] eqn:Hfp.
  - destruct (decide (counts = ∅)) as [->|Hne].
    { by rewrite fold_count_fp_no_entries. }
    destruct (fold_input_pairs fp counts Hfp) as (tmp & l & Htmp & Hkeys & Hvals & Hperm).
    rewrite (fold_count_fp_unfold fp tmp) by done.
    assert (Hl : l ≠ []).
    { intros ->. apply Permutation_nil_l in Hperm. symmetry in Hperm.
      by apply map_to_list_empty_iff in Hperm. }
    rewrite Hkeys, array_ints by (by destruct l).
    cbn [Np.mod_]. unfold Np.zeros. rewrite bool_decide_eq_false_2 by lia.
    cbn [result_bind Z.to_nat replicate].
    rewrite add_at_denoted with (zs := l.*2); [|done|by rewrite !length_fmap|].
    2:{ intros Hnil. rewrite Hnil in Hvals. apply Forall2_nil_inv_l in Hvals.
        by destruct l. }
    set (r := Np.update_at Z.add []
                (zip (Np.int_mod 0 <$> (Np.int_mod 0 <$> l.*1)) l.*2)).
    assert (Hret : returns r = false).
    { destruct (returns r) eqn:Hret; [|done]. exfalso.
      apply update_at_returns in Hret. destruct l as [|[j v] l]; [done|].
      apply Forall_cons in Hret as [Hj _]. cbn in Hj. lia. }
    change (replicate (Z.to_nat 0) 0) with (@nil Z). fold r. by destruct r.
  - unfold fold_count_fp.
    by destruct fp as [a|n s|bits|k n m|name]; try discriminate Hfp.
Qed.

Lemma fold_count_fp_nonpositive (fp : fingerprint) (dim : Z) (binary : bool) :
  dim ≤ 0 → returns (fold_count_fp fp dim binary) = false.
Proof.
  intros Hdim. destruct (decide (dim = 0)) as [->|Hz].
  { apply fold_count_fp_zero_width. }
  unfold fold_count_fp. destruct (fold_input fp) as [tmp|e]; [|done].
  cbn [result_bind]. unfold Np.zeros. by rewrite bool_decide_eq_true_2 by lia.
Qed.


Lemma array_sum_indicator (c v a : Z) (n : nat) :
  array_sum ((λ i, if bool_decide (c = i) then v else 0) <$> seqZ a (Z.of_nat n))
  = if bool_decide (a ≤ c < a + Z.of_nat n) then v else 0.
Proof.
  revert a. induction n as [|n IH]; intros a.
  - rewrite seqZ_nil by lia. cbn. by rewrite bool_decide_eq_false_2 by lia.
  - rewrite seqZ_cons by lia. rewrite fmap_cons. cbn [array_sum foldr].
    replace (Z.pred (Z.of_nat (S n))) with (Z.of_nat n) by lia.
    fold (array_sum ((λ i, if bool_decide (c = i) then v else 0)
                       <$> seqZ (Z.succ a) (Z.of_nat n))).
    rewrite IH. repeat case_bool_decide; lia.
Qed.

Lemma array_sum_pointwise (f g : Z → Z) (l : list Z) :
  array_sum ((λ i, f i + g i) <$> l) = array_sum (f <$> l) + array_sum (g <$> l).
Proof.
  unfold array_sum. induction l as [|x l IH]; [done|].
  rewrite !fmap_cons. cbn [foldr]. rewrite IH. lia.
Qed.

(** Folding moves every value into one cell: the cells add up to the values. *)
Lemma folded_sums_total (dim : Z) (counts : gmap Z Z) :
  0 < dim → array_sum (folded_sums dim counts) = total counts.
Proof.
  intros Hdim. unfold folded_sums, total. rewrite map_fold_foldr.
  assert (Heq : (λ i, class_sum dim i counts) <$> seqZ 0 dim
                = (λ i, list_class_sum dim i (map_to_list counts)) <$> seqZ 0 dim)
    by (apply list_fmap_ext; intros; apply class_sum_list).
  rewrite Heq. clear Heq.
  induction (map_to_list counts) as [|[j v] l IH].
  - cbn [foldr]. unfold list_class_sum. cbn [foldr].
    unfold array_sum. induction (seqZ 0 dim) as [|x xs IHx]; [done|].
    rewrite fmap_cons. cbn [foldr]. by rewrite IHx.
  - cbn [foldr uncurry]. rewrite <- IH.
    assert (Hstep : (λ i, list_class_sum dim i ((j, v) :: l)) <$> seqZ 0 dim
              = (λ i, (if bool_decide (j mod dim = i) then v else 0)
                      + list_class_sum dim i l) <$> seqZ 0 dim).
    { apply list_fmap_ext. intros _ i _. unfold list_class_sum. cbn [foldr fst snd].
      case_bool_decide; lia. }
    rewrite Hstep, array_sum_pointwise. f_equal.
    pose proof (array_sum_indicator (j mod dim) v 0 (Z.to_nat dim)) as Hind.
    rewrite Z2Nat.id in Hind by lia. rewrite Hind.
    pose proof (Z.mod_pos_bound j dim Hdim).
    rewrite bool_decide_eq_true_2; [done|lia].
Qed.


(** A sum of positive values over a class is positive exactly when the class
    has a member. *)
Lemma list_class_sum_positive (dim i : Z) (l : list (Z * Z)) :
  Forall (λ jv, 0 < jv.2) l →
  0 ≤ list_class_sum dim i l ∧
  (0 < list_class_sum dim i l ↔ Exists (λ jv, jv.1 mod dim = i) l).
Proof.
  unfold list_class_sum. induction 1 as [|[j v] l Hv _ [IH1 IH2]]; cbn [foldr fst snd].
  - split; [done|]. rewrite Exists_nil. lia.
  - cbn [snd] in Hv. rewrite Exists_cons. cbn [fst].
    case_bool_decide; (split; [lia|]); split; try tauto; try lia.
Qed.


(** Without collisions nothing is added up: for indices below [n], the class
    sums modulo [n] are the values themselves. *)
Lemma folded_sums_dense (n : Z) (counts : gmap Z Z) :
  (∀ j, is_Some (counts !! j) → 0 ≤ j < n) →
  folded_sums n counts = dense n counts.
Proof.
  intros Hrange. unfold folded_sums, dense.
  apply list_fmap_ext. intros k i [-> Hk]%lookup_seqZ.
  revert Hrange. unfold class_sum.
  apply (map_fold_weak_ind
           (λ r m, (∀ j, is_Some (m !! j) → 0 ≤ j < n) →
                   r = default 0 (m !! (0 + Z.of_nat k)))).
  - intros _. by rewrite lookup_empty.
  - intros j v m r Hfresh IH Hrange.
    assert (Hj : 0 ≤ j < n) by (apply Hrange; rewrite lookup_insert_eq; by eexists).
    rewrite Z.mod_small by done.
    rewrite IH.
    2:{ intros j' Hj'. apply Hrange. rewrite lookup_insert_ne; [done|].
        intros ->. rewrite Hfresh in Hj'. by destruct Hj'. }
    case_bool_decide as Heq.
    + rewrite <- Heq, Hfresh, lookup_insert_eq. cbn. lia.
    + by rewrite lookup_insert_ne.
Qed.


Lemma list_class_sum_shift (dim c i : Z) (l : list (Z * Z)) :
  list_class_sum dim i (prod_map (λ j, j + c * dim) id <$> l) = list_class_sum dim i l.
Proof.
  unfold list_class_sum. induction l as [|[j v] l IH]; [done|].
  rewrite fmap_cons. cbn [foldr prod_map fst snd id]. rewrite IH.
  by rewrite Z_mod_plus_full.
Qed.


(** ** The registries *)

Lemma registry_domains : dom _FP_FUNCS ⊆ dom _FP_DEFAULT_ARGS.
Proof. apply (bool_decide_unpack _). vm_compute. reflexivity. Qed.

Lemma defaults_of_registered (fp_type : string) :
  is_Some (_FP_FUNCS !! fp_type) → is_Some (_FP_DEFAULT_ARGS !! fp_type).
Proof.
  intros Hf. apply (elem_of_dom (D := gset string)).
  apply registry_domains. by apply elem_of_dom.
Qed.

(** C9.  A tag of the function table has an entry in the table of default
    arguments, so [_FP_DEFAULT_ARGS[fp_type]] finds one for every tag that
    passed the lookup in [_FP_FUNCS]. *)
Theorem registered_tag_has_defaults (fp_type : string) (fp_func : callable) :
  _FP_FUNCS !! fp_type = Some fp_func →
  ∃ defaults, _FP_DEFAULT_ARGS !! fp_type = Some defaults.
Proof.
  intros Hf. apply defaults_of_registered. by exists fp_func.
Qed.

Lemma registered_tag_has_defaults_witness :
  _FP_FUNCS !! "ecfp-count" = Some GetMorganGenerator ∧
  ∃ defaults, _FP_DEFAULT_ARGS !! "ecfp-count" = Some defaults.
Proof.
  split; [vm_compute; reflexivity|].
  apply (registered_tag_has_defaults "ecfp-count" GetMorganGenerator).
  vm_compute; reflexivity.
Defined.

(** The generators are entries of the function table. *)
Lemma generators_registered : dom _FP_GENERATORS ⊆ dom _FP_FUNCS.
Proof. apply (bool_decide_unpack _). vm_compute. reflexivity. Qed.

(** ** The merge of the default arguments *)

Lemma setdefault_lookup (key k : string) (value : pyval) (d : gmap string pyval) :
  setdefault key value d !! k =
  match d !! k with
  | Some v => Some v
  | None => if bool_decide (key = k) then Some value else None
  end.
Proof.
  unfold setdefault. destruct (d !! key) as [w|] eqn:Hkey.
  - destruct (d !! k) as [v|] eqn:Hk; [done|].
    case_bool_decide; [congruence|done].
  - case_bool_decide as Heq.
    + subst k. by rewrite lookup_insert_eq, Hkey.
    + rewrite lookup_insert_ne by done. by destruct (d !! k).
Qed.

(** The loop computes the union in which the caller's entries win. *)
Lemma insert_defaults_lookup (defaults fp_args : gmap string pyval) (k : string) :
  insert_defaults defaults fp_args !! k =
  match fp_args !! k with
  | Some v => Some v
  | None => defaults !! k
  end.
Proof.
  unfold insert_defaults.
  apply (map_fold_weak_ind
           (λ r m, r !! k = match fp_args !! k with
                            | Some v => Some v
                            | None => m !! k
                            end)).
  - rewrite lookup_empty. by destruct (fp_args !! k).
  - intros key value m r Hfresh IH. rewrite setdefault_lookup, IH.
    destruct (fp_args !! k) as [v|]; [done|].
    case_bool_decide as Heq.
    + subst k. by rewrite Hfresh, lookup_insert_eq.
    + rewrite lookup_insert_ne by done. by destruct (m !! k).
Qed.

Lemma insert_defaults_union (defaults fp_args : gmap string pyval) :
  insert_defaults defaults fp_args = fp_args ∪ defaults.
Proof.
  apply map_eq. intros k. rewrite insert_defaults_lookup, lookup_union.
  by destruct (fp_args !! k), (defaults !! k).
Qed.

(** ** The dispatcher *)

Lemma io_bind_ext {A B : Type} (m : io A) (k k' : A → io B) :
  (∀ a, k a = k' a) → io_bind m k = io_bind m k'.
Proof. intros Hk. destruct m as [tr [a|e]]; simpl; [|done]. by rewrite Hk. Qed.

Lemma io_bind_assoc {A B C : Type} (m : io A) (k : A → io B) (h : B → io C) :
  io_bind (io_bind m k) h = io_bind m (λ a, io_bind (k a) h).
Proof.
  destruct m as [tr [a|e]]; simpl; [|done].
  destruct (k a) as [tr' [b|e]]; simpl; [|done].
  destruct (h b) as [tr'' r]. by rewrite app_assoc.
Qed.

Lemma io_bind_trace {A B : Type} (m : io A) (k : A → io B) (ev : event) :
  ev ∈ (io_bind m k).1 → ev ∈ m.1 ∨ ∃ a, m.2 = Ok a ∧ ev ∈ (k a).1.
Proof.
  destruct m as [tr [a|e]]; cbn [io_bind fst snd]; [|by left].
  destruct (k a) as [tr' r] eqn:Hk. cbn [fst].
  intros [Hin|Hin]%elem_of_app; [by left|].
  right. exists a. by rewrite Hk.
Qed.

Lemma io_bind_trace_l {A B : Type} (m : io A) (k : A → io B) (ev : event) :
  ev ∈ m.1 → ev ∈ (io_bind m k).1.
Proof.
  destruct m as [tr [a|e]]; cbn [io_bind fst]; [|done].
  destruct (k a) as [tr' r]. cbn [fst]. intros Hin. apply elem_of_app. by left.
Qed.

Lemma io_bind_trace_r {A B : Type} (m : io A) (k : A → io B) (a : A) (ev : event) :
  m.2 = Ok a → ev ∈ (k a).1 → ev ∈ (io_bind m k).1.
Proof.
  destruct m as [tr r]. cbn [snd]. intros ->. cbn [io_bind].
  destruct (k a) as [tr' r]. cbn [fst]. intros Hin. apply elem_of_app. by right.
Qed.

Lemma io_bind_ret_l {A B : Type} (a : A) (k : A → io B) : io_bind (io_ret a) k = k a.
Proof. unfold io_ret; simpl. by destruct (k a). Qed.

Lemma io_bind_ret_r {A : Type} (m : io A) : io_bind m io_ret = m.
Proof. destruct m as [tr [a|e]]; simpl; by rewrite ?app_nil_r. Qed.

(** Folding then converting is folding: the folder returns an array, which
    the normaliser hands back. *)
Lemma fold_then_convert (fp : fingerprint) (dim : Z) (as_array : bool) :
  (do! fp := io_lift (result_map NdArray (fold_count_fp fp dim false)) in
   if py_not (Some dim) && as_array
   then io_lift (result_map NdArray (fp_to_array fp))
   else io_ret fp)
  = io_lift (result_map NdArray (fold_count_fp fp dim false)).
Proof.
  destruct (fold_count_fp fp dim false) as [a|e]; simpl; [|done].
  by destruct (bool_decide (dim = 0)), as_array.
Qed.

Lemma update_at_length {V : Type} (op : V → Z → Z) (ivs : list (Z * V)) (a a' : list Z) :
  Np.update_at op a ivs = Ok a' → length a' = length a.
Proof.
  revert a. induction ivs as [|[j v] ivs IH]; intros a; simpl.
  - by intros [= <-].
  - intros H. apply result_bind_Ok in H as (k & _ & H).
    apply IH in H. by rewrite length_alter in H.
Qed.

Lemma add_at_length (a a' : list Z) (i v : Np.ndarray) :
  Np.add_at a i v = Ok a' → length a' = length a.
Proof.
  unfold Np.add_at. destruct i as [js|fs]; [|discriminate].
  destruct v as [vs|fs]; case_bool_decide; try discriminate;
    apply update_at_length.
Qed.

(** What [fold_count_fp] returns is an integer array of the width asked for. *)
Lemma fold_count_fp_shape (fp : fingerprint) (dim : Z) (binary : bool) (a : Np.ndarray) :
  fold_count_fp fp dim binary = Ok a →
  ∃ xs, a = Np.IntArray xs ∧ Z.of_nat (length xs) = dim.
Proof.
  unfold fold_count_fp. intros H.
  apply result_bind_Ok in H as (tmp & _ & H).
  apply result_bind_Ok in H as (zs & Hz & H).
  apply result_bind_Ok in H as (folded & Hadd & [= <-]).
  unfold Np.zeros in Hz. case_bool_decide as Hdim; [done|]. injection Hz as <-.
  apply add_at_length in Hadd. rewrite length_replicate in Hadd.
  eexists; split; [done|].
  destruct binary; [unfold Np.clip; rewrite length_fmap|]; lia.
Qed.

Section DispatcherFacts.

Context {Mol Generator : Type}.
Variable mol_str : Mol → string.
Variable to_mol : string → option Mol.
Variable rdkit_call : callable → Mol → gmap string pyval → result fingerprint.
Variable FingerprintMol : Mol → result (Np.ndarray * Np.ndarray).
Variable rdkit_generator : callable → gmap string pyval → result Generator.
Variable GetFingerprint : Generator → Mol → result fingerprint.
Variable GetCountFingerprint : Generator → Mol → result fingerprint.

Local Abbreviation native :=
  (native_fingerprint mol_str to_mol rdkit_call FingerprintMol
                      rdkit_generator GetFingerprint GetCountFingerprint).
Local Abbreviation run :=
  (to_fp mol_str to_mol rdkit_call FingerprintMol
         rdkit_generator GetFingerprint GetCountFingerprint).

(** C4.  For a tag that is not in the function table [to_fp] raises the
    error that quotes the tag and refers to [dm.list_supported_fingerprints()],
    and it has called neither the parser nor the toolkit by then. *)
Theorem to_fp_unknown_tag (mol : mol_input Mol) (as_array : bool) (fp_type : string)
    (fold_size : option Z) (fp_args : gmap string pyval) :
  _FP_FUNCS !! fp_type = None →
  run mol as_array fp_type fold_size fp_args =
  ([], Raise (ValueError ("The fingerprint '" +:+ fp_type +:+
     "' is not available. Use `dm.list_supported_fingerprints()` to get a complete list of the available fingerprints."))).
Proof.
  intros Hnone. unfold to_fp, native_fingerprint. rewrite Hnone. reflexivity.
Qed.

(** C8.  For text that the parser does not resolve, [to_fp] (called with a
    registered tag, so that the parser is reached) raises the error that
    quotes the text, after the one call of the parser. *)
Theorem to_fp_unparseable_text (s : string) (as_array : bool) (fp_type : string)
    (fp_func : callable) (fold_size : option Z) (fp_args : gmap string pyval) :
  _FP_FUNCS !! fp_type = Some fp_func →
  to_mol s = None →
  run (MolText s) as_array fp_type fold_size fp_args =
  ([EvToMol s],
   Raise (ValueError ("It seems like the input molecule '" +:+ s +:+ "' is invalid."))).
Proof.
  intros Hf Hparse. unfold to_fp, native_fingerprint. rewrite Hf.
  unfold io_call. rewrite Hparse. reflexivity.
Qed.

(** C2.  With a fold width the outcome of [to_fp] is the outcome of
    [fold_count_fp] on the native result, whatever [as_array] is, and a
    value it returns is an integer array of that width; without one, the
    native result goes through [fp_to_array] when [as_array] is set and is
    returned as it is otherwise. *)
Theorem to_fp_postprocessing (mol : mol_input Mol) (fp_type : string)
    (fp_args : gmap string pyval) :
  (∀ (dim : Z) (as_array : bool),
     run mol as_array fp_type (Some dim) fp_args =
     (do! fp := native mol fp_type fp_args in
      io_lift (result_map NdArray (fold_count_fp fp dim false))) ∧
     match (run mol as_array fp_type (Some dim) fp_args).2 with
     | Ok out => ∃ xs, out = NdArray (Np.IntArray xs) ∧ Z.of_nat (length xs) = dim
     | Raise _ => True
     end) ∧
  run mol true fp_type None fp_args =
    (do! fp := native mol fp_type fp_args in
     io_lift (result_map NdArray (fp_to_array fp))) ∧
  run mol false fp_type None fp_args = native mol fp_type fp_args.
Proof.
  assert (Hfold : ∀ (dim : Z) (as_array : bool),
     run mol as_array fp_type (Some dim) fp_args =
     (do! fp := native mol fp_type fp_args in
      io_lift (result_map NdArray (fold_count_fp fp dim false)))).
  { intros dim as_array. unfold to_fp. apply io_bind_ext. intros fp.
    apply fold_then_convert. }
  split_and!.
  - intros dim as_array. split; [apply Hfold|]. rewrite Hfold.
    destruct (native mol fp_type fp_args) as [tr [fp|e]]; simpl; [|done].
    destruct (fold_count_fp fp dim false) as [a|e] eqn:Hfp; simpl; [|done].
    apply fold_count_fp_shape in Hfp as (xs & -> & Hlen). eauto.
  - unfold to_fp. apply io_bind_ext. intros fp. by rewrite io_bind_ret_l.
  - unfold to_fp. rewrite <- (io_bind_ret_r (native mol fp_type fp_args)) at 2.
    apply io_bind_ext. intros fp. by rewrite io_bind_ret_l.
Qed.

(** The dispatcher makes no call after the native result is there. *)
Lemma to_fp_trace (mol : mol_input Mol) (as_array : bool) (fp_type : string)
    (fold_size : option Z) (fp_args : gmap string pyval) :
  (run mol as_array fp_type fold_size fp_args).1 = (native mol fp_type fp_args).1.
Proof.
  unfold to_fp. destruct (native mol fp_type fp_args) as [tr [fp|e]]; simpl; [|done].
  destruct fold_size as [dim|]; simpl.
  - destruct (fold_count_fp fp dim false) as [a|e]; simpl; [|by rewrite app_nil_r].
    destruct (bool_decide (dim = 0) && as_array); simpl.
    + destruct a; simpl; by rewrite app_nil_r.
    + by rewrite app_nil_r.
  - destruct as_array; simpl; [|by rewrite app_nil_r].
    destruct (fp_to_array fp); simpl; by rewrite app_nil_r.
Qed.

(** The keyword arguments of every call the native part makes are the
    caller's, completed by the defaults of the tag. *)
Lemma native_fingerprint_kwargs (mol : mol_input Mol) (fp_type : string)
    (fp_args : gmap string pyval) (ev : event) (kwargs : gmap string pyval) :
  ev ∈ (native mol fp_type fp_args).1 →
  event_kwargs ev = Some kwargs →
  ∃ defaults, _FP_DEFAULT_ARGS !! fp_type = Some defaults ∧
              kwargs = insert_defaults defaults fp_args.
Proof.
  unfold native_fingerprint.
  destruct (_FP_FUNCS !! fp_type) as [f|];
    [|intros Hin; by apply elem_of_nil in Hin].
  intros Hin Hkw.
  apply io_bind_trace in Hin as [Hin | (mol_obj & Hmol & Hin)].
  { destruct mol as [s|m|]; cbn [io_call io_ret fst] in Hin.
    - apply list_elem_of_singleton in Hin as ->. discriminate.
    - by apply elem_of_nil in Hin.
    - by apply elem_of_nil in Hin. }
  destruct mol_obj as [m|]; [|by apply elem_of_nil in Hin].
  apply io_bind_trace in Hin as [Hin | (d & Hd & Hin)].
  { destruct (_FP_DEFAULT_ARGS !! fp_type); by apply elem_of_nil in Hin. }
  destruct (_FP_DEFAULT_ARGS !! fp_type) as [d'|]; [|discriminate Hd].
  cbn [io_ret snd] in Hd. injection Hd as ->.
  exists d. split; [done|].
  cbv zeta in Hin. destruct (bool_decide _).
  - apply io_bind_trace in Hin as [Hin | (g & Hg & Hin)].
    + apply list_elem_of_singleton in Hin as ->.
      cbn [event_kwargs] in Hkw. congruence.
    + destruct (endswith fp_type "-count");
        apply list_elem_of_singleton in Hin as ->; discriminate.
  - apply list_elem_of_singleton in Hin as ->.
    cbn [event_kwargs] in Hkw. congruence.
Qed.

(** C7.  The keyword arguments that reach the toolkit are the shallow merge
    of the caller's arguments over the defaults of the tag: a key the caller
    supplied keeps the caller's value, any other key has the default of the
    table, if the table has one. *)
Theorem to_fp_kwargs_merged (mol : mol_input Mol) (as_array : bool) (fp_type : string)
    (fold_size : option Z) (fp_args : gmap string pyval)
    (ev : event) (kwargs : gmap string pyval) :
  ev ∈ (run mol as_array fp_type fold_size fp_args).1 →
  event_kwargs ev = Some kwargs →
  ∃ defaults, _FP_DEFAULT_ARGS !! fp_type = Some defaults ∧
    (∀ key value, fp_args !! key = Some value → kwargs !! key = Some value) ∧
    (∀ key, fp_args !! key = None → kwargs !! key = defaults !! key).
Proof.
  rewrite to_fp_trace. intros Hin Hkw.
  destruct (native_fingerprint_kwargs _ _ _ _ _ Hin Hkw) as (d & Hd & ->).
  exists d. split; [done|]. split.
  - intros key value Hk. by rewrite insert_defaults_lookup, Hk.
  - intros key Hk. by rewrite insert_defaults_lookup, Hk.
Qed.

(** For a registered tag and a molecule that resolves, the lookup of the
    defaults succeeds and the toolkit is called with the merged keyword
    arguments. *)
Theorem to_fp_reaches_toolkit (mol : mol_input Mol) (m : Mol) (as_array : bool)
    (fp_type : string) (fp_func : callable) (fold_size : option Z)
    (fp_args : gmap string pyval) :
  _FP_FUNCS !! fp_type = Some fp_func →
  mol = MolObject m ∨ (∃ s, mol = MolText s ∧ to_mol s = Some m) →
  ∃ defaults ev,
    _FP_DEFAULT_ARGS !! fp_type = Some defaults ∧
    ev ∈ (run mol as_array fp_type fold_size fp_args).1 ∧
    event_kwargs ev = Some (insert_defaults defaults fp_args).
Proof.
  intros Hf Hmol. rewrite to_fp_trace.
  destruct (defaults_of_registered fp_type) as [d Hd]; [by eexists|].
  exists d.
  exists (if bool_decide (is_Some (_FP_GENERATORS !! fp_type))
          then EvMakeGenerator fp_func (insert_defaults d fp_args)
          else EvCall fp_func (insert_defaults d fp_args)).
  split; [done|]. split; [|by case_bool_decide].
  unfold native_fingerprint. rewrite Hf.
  apply io_bind_trace_r with (a := Some m).
  { destruct Hmol as [-> | (s & -> & Hs)]; [done|].
    cbn [io_call snd]. by rewrite Hs. }
  apply io_bind_trace_r with (a := d); [by rewrite Hd|].
  cbv zeta. destruct (bool_decide (is_Some (_FP_GENERATORS !! fp_type))).
  - apply io_bind_trace_l. apply list_elem_of_here.
  - apply list_elem_of_here.
Qed.

End DispatcherFacts.

(** ** The dispatcher end to end *)

(** In the function table the generator tags are the tags of the generator
    factories. *)
Lemma registry_factories :
  map_Forall (λ fp_type f,
      bool_decide (is_Some (_FP_GENERATORS !! fp_type)) = is_generator_factory f)
    _FP_FUNCS.
Proof. apply (bool_decide_unpack _). vm_compute. reflexivity. Qed.

Lemma io_bind_snd {A B : Type} (m : io A) (k : A → io B) :
  (io_bind m k).2 = match m.2 with Ok a => (k a).2 | Raise e => Raise e end.
Proof. destruct m as [tr [a|e]]; cbn [io_bind snd]; [|done]. by destruct (k a). Qed.

(** The merge of an argument dict with the defaults, as an algebra: the
    defaults alone when the caller passes nothing, no effect when applied
    again, and the keys of both and no other. *)
Theorem insert_defaults_algebra (defaults fp_args : gmap string pyval) :
  insert_defaults defaults ∅ = defaults ∧
  insert_defaults defaults (insert_defaults defaults fp_args)
    = insert_defaults defaults fp_args ∧
  dom (insert_defaults defaults fp_args) = dom fp_args ∪ dom defaults.
Proof.
  rewrite !insert_defaults_union. split_and!.
  - apply (left_id_L ∅ (∪)).
  - rewrite <- (assoc_L (∪)). by rewrite (idemp_L (∪)).
  - apply dom_union_L.
Qed.

Section DispatcherEndToEnd.

Context {Mol Generator : Type}.
Variable mol_str : Mol → string.
Variable to_mol : string → option Mol.
Variable rdkit_call : callable → Mol → gmap string pyval → result fingerprint.
Variable FingerprintMol : Mol → result (Np.ndarray * Np.ndarray).
Variable rdkit_generator : callable → gmap string pyval → result Generator.
Variable GetFingerprint : Generator → Mol → result fingerprint.
Variable GetCountFingerprint : Generator → Mol → result fingerprint.

Local Abbreviation native :=
  (native_fingerprint mol_str to_mol rdkit_call FingerprintMol
                      rdkit_generator GetFingerprint GetCountFingerprint).
Local Abbreviation run :=
  (to_fp mol_str to_mol rdkit_call FingerprintMol
         rdkit_generator GetFingerprint GetCountFingerprint).
Local Abbreviation toolkit :=
  (toolkit_outcome rdkit_call FingerprintMol rdkit_generator
                   GetFingerprint GetCountFingerprint).

(** [to_fp] is the native part followed by the post-processing. *)
Lemma to_fp_postprocess (mol : mol_input Mol) (as_array : bool) (fp_type : string)
    (fold_size : option Z) (fp_args : gmap string pyval) :
  run mol as_array fp_type fold_size fp_args =
  (do! fp := native mol fp_type fp_args in
   io_lift (postprocess as_array fold_size fp)).
Proof.
  unfold to_fp. apply io_bind_ext. intros fp.
  destruct fold_size as [dim|]; cbn [postprocess].
  - apply fold_then_convert.
  - rewrite io_bind_ret_l. by destruct as_array.
Qed.

(** The native part on a registered tag and a molecule that resolves. *)
Lemma native_fingerprint_outcome (mol : mol_input Mol) (m : Mol) (fp_type : string)
    (f : callable) (defaults fp_args : gmap string pyval) :
  _FP_FUNCS !! fp_type = Some f →
  _FP_DEFAULT_ARGS !! fp_type = Some defaults →
  resolves to_mol mol m →
  (native mol fp_type fp_args).2 = toolkit fp_type f m (fp_args ∪ defaults).
Proof.
  intros Hf Hd Hmol. unfold native_fingerprint, toolkit_outcome.
  pose proof (registry_factories fp_type f Hf) as Hgen. cbn beta in Hgen.
  rewrite Hf, io_bind_snd.
  assert (Hrest : (do! defaults0 :=
        match _FP_DEFAULT_ARGS !! fp_type with
        | Some d => io_ret d
        | None => io_raise (KeyError fp_type)
        end in
      let fp_args := insert_defaults defaults0 fp_args in
      if bool_decide (is_Some (_FP_GENERATORS !! fp_type)) then
        do! fp_func := io_call (EvMakeGenerator f fp_args)
                               (rdkit_generator f fp_args) in
        if endswith fp_type "-count"
        then io_call EvGetCountFingerprint (GetCountFingerprint fp_func m)
        else io_call EvGetFingerprint (GetFingerprint fp_func m)
      else io_call (EvCall f fp_args)
                   (call_direct rdkit_call FingerprintMol f m fp_args)).2
    = (if is_generator_factory f then
         let* g := rdkit_generator f (fp_args ∪ defaults) in
         if endswith fp_type "-count" then GetCountFingerprint g m
         else GetFingerprint g m
       else call_direct rdkit_call FingerprintMol f m (fp_args ∪ defaults))).
  { rewrite io_bind_snd, Hd. cbn [io_ret snd]. cbv zeta.
    rewrite insert_defaults_union, Hgen.
    destruct (is_generator_factory f); [|done].
    rewrite io_bind_snd. cbn [io_call snd result_bind].
    destruct (rdkit_generator f (fp_args ∪ defaults)) as [g|e]; [|done].
    by destruct (endswith fp_type "-count"). }
  destruct Hmol as [-> | (s & -> & Hs)].
  - exact Hrest.
  - cbn [io_call snd]. rewrite Hs. exact Hrest.
Qed.


(** The callables are used as what they are: a generator is only built from
    a generator factory, and only the other callables are applied to a
    molecule. *)
Theorem to_fp_call_discipline (mol : mol_input Mol) (as_array : bool)
    (fp_type : string) (fold_size : option Z) (fp_args : gmap string pyval)
    (ev : event) :
  ev ∈ (run mol as_array fp_type fold_size fp_args).1 →
  match ev with
  | EvMakeGenerator f _ => is_generator_factory f = true
  | EvCall f _ => is_generator_factory f = false
  | EvToMol _ | EvGetFingerprint | EvGetCountFingerprint => True
  end.
Proof.
  rewrite to_fp_trace. unfold native_fingerprint.
  destruct (_FP_FUNCS !! fp_type) as [f|] eqn:Hf;
    [|intros Hin; by apply elem_of_nil in Hin].
  pose proof (registry_factories fp_type f Hf) as Hgen. cbn beta in Hgen.
  intros Hin.
  apply io_bind_trace in Hin as [Hin | (mol_obj & Hmol & Hin)].
  { destruct mol as [s|m|]; cbn [io_call io_ret fst] in Hin.
    - by apply list_elem_of_singleton in Hin as ->.
    - by apply elem_of_nil in Hin.
    - by apply elem_of_nil in Hin. }
  destruct mol_obj as [m|]; [|by apply elem_of_nil in Hin].
  apply io_bind_trace in Hin as [Hin | (d & Hd & Hin)].
  { destruct (_FP_DEFAULT_ARGS !! fp_type); by apply elem_of_nil in Hin. }
  cbv zeta in Hin. rewrite Hgen in Hin.
  destruct (is_generator_factory f) eqn:Hfac.
  - apply io_bind_trace in Hin as [Hin | (g & Hg & Hin)].
    + by apply list_elem_of_singleton in Hin as ->.
    + destruct (endswith fp_type "-count");
        by apply list_elem_of_singleton in Hin as ->.
  - by apply list_elem_of_singleton in Hin as ->.
Qed.

(** The parser is called on the text that was passed and on nothing else,
    and only once the tag has been found in the function table. *)
Theorem to_fp_parser_calls (mol : mol_input Mol) (as_array : bool)
    (fp_type : string) (fold_size : option Z) (fp_args : gmap string pyval)
    (s : string) :
  EvToMol s ∈ (run mol as_array fp_type fold_size fp_args).1 →
  mol = MolText s ∧ is_Some (_FP_FUNCS !! fp_type).
Proof.
  rewrite to_fp_trace. unfold native_fingerprint.
  destruct (_FP_FUNCS !! fp_type) as [f|];
    [|intros Hin; by apply elem_of_nil in Hin].
  intros Hin. split; [|by eexists].
  apply io_bind_trace in Hin as [Hin | (mol_obj & Hmol & Hin)].
  { destruct mol as [s'|m|]; cbn [io_call io_ret fst] in Hin.
    - apply list_elem_of_singleton in Hin. by injection Hin as ->.
    - by apply elem_of_nil in Hin.
    - by apply elem_of_nil in Hin. }
  exfalso. destruct mol_obj as [m|]; [|by apply elem_of_nil in Hin].
  apply io_bind_trace in Hin as [Hin | (d & Hd & Hin)].
  { destruct (_FP_DEFAULT_ARGS !! fp_type); by apply elem_of_nil in Hin. }
  cbv zeta in Hin. destruct (bool_decide _).
  - apply io_bind_trace in Hin as [Hin | (g & Hg & Hin)].
    + by apply list_elem_of_singleton in Hin.
    + destruct (endswith fp_type "-count");
        by apply list_elem_of_singleton in Hin.
  - by apply list_elem_of_singleton in Hin.
Qed.

(** A registered tag never gets the answer of an unknown one: [to_fp] raises
    the unknown-fingerprint error without having called anything exactly for
    the tags that [list_supported_fingerprints] does not list. *)
Theorem to_fp_rejects_unsupported (mol : mol_input Mol) (as_array : bool)
    (fp_type : string) (fold_size : option Z) (fp_args : gmap string pyval) :
  run mol as_array fp_type fold_size fp_args
    = ([], Raise (unknown_fingerprint_error fp_type))
  ↔ list_supported_fingerprints !! fp_type = None.
Proof.
  unfold list_supported_fingerprints. split.
  - intros Hrun. destruct (_FP_FUNCS !! fp_type) as [f|] eqn:Hf; [exfalso|done].
    destruct (defaults_of_registered fp_type) as [d Hd]; [by eexists|].
    assert (Htr : (run mol as_array fp_type fold_size fp_args).1 = [])
      by by rewrite Hrun.
    assert (Hres : (run mol as_array fp_type fold_size fp_args).2
                   = Raise (unknown_fingerprint_error fp_type))
      by by rewrite Hrun.
    rewrite to_fp_trace in Htr. rewrite to_fp_postprocess, io_bind_snd in Hres.
    unfold native_fingerprint in Htr, Hres. rewrite Hf in Htr, Hres.
    destruct mol as [s|m|].
    + destruct (io_bind (io_call (EvToMol s) (Ok (to_mol s))) _) as [tr r] eqn:Hb.
      assert (EvToMol s ∈ tr); [|cbn [fst] in Htr; subst tr; by apply elem_of_nil in H].
      change tr with (tr, r).1. rewrite <- Hb.
      apply io_bind_trace_l. apply list_elem_of_here.
    + set (ev := if bool_decide (is_Some (_FP_GENERATORS !! fp_type))
                 then EvMakeGenerator f (insert_defaults d fp_args)
                 else EvCall f (insert_defaults d fp_args)).
      assert (Hin : ev ∈ ([] : list event)); [|by apply elem_of_nil in Hin].
      rewrite <- Htr.
      apply io_bind_trace_r with (a := Some m); [done|].
      apply io_bind_trace_r with (a := d); [by rewrite Hd|].
      cbv zeta. subst ev.
      destruct (bool_decide (is_Some (_FP_GENERATORS !! fp_type))).
      * apply io_bind_trace_l. apply list_elem_of_here.
      * apply list_elem_of_here.
    + rewrite io_bind_snd in Hres. cbn [io_ret io_raise snd] in Hres.
      discriminate Hres.
  - intros Hnone. unfold to_fp, native_fingerprint. by rewrite Hnone.
Qed.

(** A fold width that is not positive leaves [to_fp] nothing to return: the
    folder raises on every native result, and before that only the tag, the
    molecule or the toolkit can have failed. *)
Theorem to_fp_nonpositive_fold_size (mol : mol_input Mol) (as_array : bool)
    (fp_type : string) (dim : Z) (fp_args : gmap string pyval) :
  dim ≤ 0 →
  returns (run mol as_array fp_type (Some dim) fp_args).2 = false.
Proof.
  intros Hdim. rewrite to_fp_postprocess, io_bind_snd.
  destruct (native mol fp_type fp_args).2 as [fp|e]; [|done].
  cbn [io_lift snd postprocess].
  pose proof (fold_count_fp_nonpositive fp dim false Hdim) as Hret.
  by destruct (fold_count_fp fp dim false).
Qed.


End DispatcherEndToEnd.

(** *** The dispatcher on the miniature toolkit *)

Lemma to_fp_unknown_tag_witness :
  _FP_FUNCS !! "secfp" = None ∧
  Toy.to_fp (MolText "CCO") true "secfp" (Some 1024) ∅ =
  ([], Raise (ValueError ("The fingerprint 'secfp' is not available. " +:+
     "Use `dm.list_supported_fingerprints()` to get a complete list of the available fingerprints."))).
Proof.
  split; [vm_compute; reflexivity|].
  apply (to_fp_unknown_tag Toy.mol_str Toy.to_mol Toy.rdkit_call Toy.FingerprintMol
           Toy.rdkit_generator Toy.GetFingerprint Toy.GetCountFingerprint
           (MolText "CCO") true "secfp" (Some 1024) ∅).
  vm_compute; reflexivity.
Defined.

Lemma to_fp_unparseable_text_witness :
  _FP_FUNCS !! "ecfp" = Some GetMorganGenerator ∧
  Toy.to_mol "C1CC" = None ∧
  Toy.to_fp (MolText "C1CC") true "ecfp" None ∅ =
  ([EvToMol "C1CC"],
   Raise (ValueError "It seems like the input molecule 'C1CC' is invalid.")).
Proof.
  split; [vm_compute; reflexivity|]. split; [vm_compute; reflexivity|].
  apply (to_fp_unparseable_text Toy.mol_str Toy.to_mol Toy.rdkit_call Toy.FingerprintMol
           Toy.rdkit_generator Toy.GetFingerprint Toy.GetCountFingerprint
           "C1CC" true "ecfp" GetMorganGenerator None ∅);
    vm_compute; reflexivity.
Defined.

Lemma to_fp_kwargs_merged_witness :
  EvCall GetErGFingerprint Toy.erg_kwargs
    ∈ (Toy.to_fp (MolText "CCO") true "erg" None Toy.erg_args).1 ∧
  ∃ defaults, _FP_DEFAULT_ARGS !! "erg" = Some defaults ∧
    (∀ key value, Toy.erg_args !! key = Some value →
                  Toy.erg_kwargs !! key = Some value) ∧
    (∀ key, Toy.erg_args !! key = None → Toy.erg_kwargs !! key = defaults !! key).
Proof.
  assert (Hin : EvCall GetErGFingerprint Toy.erg_kwargs
    ∈ (Toy.to_fp (MolText "CCO") true "erg" None Toy.erg_args).1).
  { apply (list_elem_of_lookup_2 _ 1%nat). vm_compute. reflexivity. }
  split; [exact Hin|].
  apply (to_fp_kwargs_merged Toy.mol_str Toy.to_mol Toy.rdkit_call Toy.FingerprintMol
           Toy.rdkit_generator Toy.GetFingerprint Toy.GetCountFingerprint
           (MolText "CCO") true "erg" None Toy.erg_args
           (EvCall GetErGFingerprint Toy.erg_kwargs) Toy.erg_kwargs Hin).
  reflexivity.
Defined.

(** *** The folder on concrete fingerprints *)


(** A bit set whose on bits 1, 5 and 13 collide modulo 4. *)
Example fold_count_fp_bit_set :
  fold_count_fp (SparseBitVect 2048 {[ 5; 13; 1; 2 ]}) 4 false
    = Ok (Np.IntArray [0; 3; 1; 0]) ∧
  fold_count_fp (SparseBitVect 2048 {[ 5; 13; 1; 2 ]}) 4 true
    = Ok (Np.IntArray [0; 1; 1; 0]).
Proof. split; vm_compute; reflexivity. Qed.

Lemma to_fp_reaches_toolkit_witness :
  _FP_FUNCS !! "ecfp-count" = Some GetMorganGenerator ∧
  Toy.to_mol "CCO" = Some "CCO" ∧
  ∃ defaults ev,
    _FP_DEFAULT_ARGS !! "ecfp-count" = Some defaults ∧
    ev ∈ (Toy.to_fp (MolText "CCO") true "ecfp-count" (Some 4) ∅).1 ∧
    event_kwargs ev = Some (insert_defaults defaults ∅).
Proof.
  split; [vm_compute; reflexivity|]. split; [vm_compute; reflexivity|].
  apply (to_fp_reaches_toolkit Toy.mol_str Toy.to_mol Toy.rdkit_call Toy.FingerprintMol
           Toy.rdkit_generator Toy.GetFingerprint Toy.GetCountFingerprint
           (MolText "CCO") "CCO" true "ecfp-count" GetMorganGenerator (Some 4) ∅).
  - vm_compute; reflexivity.
  - right. exists "CCO". split; [reflexivity | vm_compute; reflexivity].
Defined.

(** Runs of the dispatcher: a count fingerprint folded to width 4, the same
    unfolded and converted, and a dense fingerprint that the folder refuses. *)
Example to_fp_runs :
  (Toy.to_fp (MolText "CCO") true "ecfp-count" (Some 4) ∅).2
    = Ok (NdArray (Np.IntArray [0; 12; 0; 0])) ∧
  (Toy.to_fp (MolText "CCO") false "ecfp-count" (Some 4) ∅).2
    = Ok (NdArray (Np.IntArray [0; 12; 0; 0])) ∧
  (Toy.to_fp (MolText "CCO") true "ecfp" None ∅).2
    = Ok (NdArray (Np.IntArray [0; 1; 1; 0])) ∧
  (Toy.to_fp (MolText "CCO") false "ecfp" None ∅).2
    = Ok (ExplicitBitVect [false; true; true; false]) ∧
  (Toy.to_fp (MolText "CCO") true "ecfp" (Some 4) ∅).2
    = Raise (wrong_type_error (ExplicitBitVect [false; true; true; false])) ∧
  (Toy.to_fp (MolText "CCO") true "estate" None ∅).2
    = Ok (NdArray (Np.IntArray [0; 2; 1])).
Proof. split_and!; vm_compute; reflexivity. Qed.

(** Widths that are not positive: with width 0 every index is out of
    bounds, a negative width is refused by [np.zeros]. *)
Example fold_count_fp_degenerate_width :
  fold_count_fp (SparseIntVect UIntSparse 2048 {[ 5 := 2 ]}) 0 false
    = Raise (IndexError "index 0 is out of bounds for axis 0 with size 0") ∧
  fold_count_fp (SparseIntVect UIntSparse 2048 {[ 5 := 2 ]}) (-1) false
    = Raise (ValueError "negative dimensions are not allowed").
Proof. split; vm_compute; reflexivity. Qed.

(** *** The normaliser and the folder on the sample fingerprints *)

Lemma sample_counts_range : map_Forall (λ j _, 0 ≤ j < 8) Sample.counts.
Proof. apply (bool_decide_unpack _). vm_compute. reflexivity. Qed.

Lemma sample_counts_positive : map_Forall (λ _ v, 0 < v) Sample.counts.
Proof. apply (bool_decide_unpack _). vm_compute. reflexivity. Qed.

Lemma sample_counts_nonempty : Sample.counts ≠ ∅.
Proof. apply insert_non_empty. Qed.

Lemma sample_bits_range :
  map_Forall (λ j _, 0 ≤ j < 8) (gset_to_gmap 1 Sample.on_bits).
Proof. apply (bool_decide_unpack _). vm_compute. reflexivity. Qed.

Lemma sample_bits_nonempty : gset_to_gmap 1 Sample.on_bits ≠ ∅.
Proof.
  intros Hempty. apply (f_equal (λ m : gmap Z Z, m !! 1)) in Hempty.
  vm_compute in Hempty. discriminate Hempty.
Qed.






(** Cancelling counts show why the presence reading needs positive counts:
    the indices 0 and 4 meet in cell 0 with sum 0. *)
Example fold_count_fp_cancelling_counts :
  fold_count_fp (SparseIntVect IntSparse 8 {[ 0 := 1; 4 := -1 ]}) 4 true
    = Ok (Np.IntArray [0; 0; 0; 0]).
Proof. vm_compute. reflexivity. Qed.

(** *** The dispatcher end to end on the miniature toolkit *)


Lemma to_fp_call_discipline_witness :
  EvCall GetErGFingerprint Toy.erg_kwargs
    ∈ (Toy.to_fp (MolText "CCO") true "erg" None Toy.erg_args).1 ∧
  is_generator_factory GetErGFingerprint = false.
Proof.
  assert (Hin : EvCall GetErGFingerprint Toy.erg_kwargs
    ∈ (Toy.to_fp (MolText "CCO") true "erg" None Toy.erg_args).1).
  { apply (list_elem_of_lookup_2 _ 1%nat). vm_compute. reflexivity. }
  split; [exact Hin|].
  exact (to_fp_call_discipline Toy.mol_str Toy.to_mol Toy.rdkit_call Toy.FingerprintMol
           Toy.rdkit_generator Toy.GetFingerprint Toy.GetCountFingerprint
           (MolText "CCO") true "erg" None Toy.erg_args
           (EvCall GetErGFingerprint Toy.erg_kwargs) Hin).
Defined.

Lemma to_fp_parser_calls_witness :
  EvToMol "CCO" ∈ (Toy.to_fp (MolText "CCO") true "erg" None Toy.erg_args).1 ∧
  (MolText "CCO" : mol_input Toy.Mol) = MolText "CCO" ∧
  is_Some (_FP_FUNCS !! "erg").
Proof.
  assert (Hin : EvToMol "CCO"
    ∈ (Toy.to_fp (MolText "CCO") true "erg" None Toy.erg_args).1).
  { apply (list_elem_of_lookup_2 _ 0%nat). vm_compute. reflexivity. }
  split; [exact Hin|].
  exact (to_fp_parser_calls Toy.mol_str Toy.to_mol Toy.rdkit_call Toy.FingerprintMol
           Toy.rdkit_generator Toy.GetFingerprint Toy.GetCountFingerprint
           (MolText "CCO") true "erg" None Toy.erg_args "CCO" Hin).
Defined.

Lemma to_fp_nonpositive_fold_size_witness :
  0 ≤ 0 ∧
  returns (Toy.to_fp (MolText "CCO") true "ecfp-count" (Some 0) ∅).2 = false.
Proof.
  split; [lia|].
  apply (to_fp_nonpositive_fold_size Toy.mol_str Toy.to_mol Toy.rdkit_call
           Toy.FingerprintMol Toy.rdkit_generator Toy.GetFingerprint
           Toy.GetCountFingerprint (MolText "CCO") true "ecfp-count" 0 ∅).
  lia.
Defined.


